(** * Superstore insight engine: the scraping step

    A shallow embedding of [src/05_scrape_demo.py], and of the column labels
    of [src/01_load_clean.py].

    The script is glue over libraries ([requests], [pyquery], [urllib.parse],
    [json]).  Its control flow is embedded as written; what the libraries and
    the operating system answer is an explicit environment ([libs], [os_env])
    over which every statement quantifies.

    - Python [str] is a sequence of code points: [str := list N].
    - A value that comes out of [json.loads] or of a pyquery call is a
      [pyval].
    - Code that may raise returns a [result]; code that also fetches pages
      runs in [M], which threads the log of the requests sent so far and
      keeps it when an exception propagates.
    - The dicts the script builds with fixed keys (an item, a site's result)
      are records; the mapping it fills key by key is a [gmap].
    - [main] runs on a [world]: the requests sent, the lines handed to
      [print] and the files; a print, like any call to the system, may
      raise. *)

From Stdlib Require Import String Ascii NArith ZArith List PrimFloat Lia.
From stdpp Require Import base option list gmap.

Set Default Proof Using "Type".
Local Open Scope N_scope.

(** ** Strings *)

Definition char := N.
Definition str := list char.

(** An ASCII source literal as a sequence of code points.  A backslash is an
    ordinary character here: [lit "\xa0"] is Python's ["\\xa0"]. *)
Definition lit (s : string) : str := map N_of_ascii (list_ascii_of_string s).

Fixpoint str_eqb (a b : str) : bool :=
  match a, b with
  | [], [] => true
  | x :: a', y :: b' => (x =? y) && str_eqb a' b'
  | _, _ => false
  end.

Fixpoint startswith (p s : str) : bool :=
  match p, s with
  | [], _ => true
  | x :: p', y :: s' => (x =? y) && startswith p' s'
  | _ :: _, [] => false
  end.

(** [sub in s] *)
Fixpoint contains (sub s : str) : bool :=
  startswith sub s || match s with [] => false | _ :: s' => contains sub s' end.

(** [s.replace(old, new)] for a non-empty [old]: occurrences are taken from
    the left and do not overlap.  [skip] counts the characters of the current
    occurrence that remain to be dropped. *)
Fixpoint replace_from (old new : str) (skip : nat) (s : str) : str :=
  match s with
  | [] => []
  | c :: s' =>
      match skip with
      | S k => replace_from old new k s'
      | O => if startswith old s
             then new ++ replace_from old new (length old - 1) s'
             else c :: replace_from old new 0 s'
      end
  end.

Definition replace (old new s : str) : str := replace_from old new 0 s.

(** The characters [str.strip()] removes: those for which [str.isspace]
    holds. *)
Definition isspace (c : char) : bool :=
  ((9 <=? c) && (c <=? 13)) || ((28 <=? c) && (c <=? 32))
  || (c =? 133) || (c =? 160) || (c =? 5760)
  || ((8192 <=? c) && (c <=? 8202))
  || (c =? 8232) || (c =? 8233) || (c =? 8239) || (c =? 8287) || (c =? 12288).

Fixpoint lstrip (s : str) : str :=
  match s with
  | c :: s' => if isspace c then lstrip s' else s
  | [] => []
  end.

Definition rstrip (s : str) : str := rev (lstrip (rev s)).
Definition strip (s : str) : str := rstrip (lstrip s).

(** [s.split(sep)[0]] for a one-character [sep]. *)
Fixpoint split_head (sep : char) (s : str) : str :=
  match s with
  | [] => []
  | c :: s' => if c =? sep then [] else c :: split_head sep s'
  end.

(** [s.rstrip(ch)] for a one-character set. *)
Fixpoint lstrip_char (ch : char) (s : str) : str :=
  match s with
  | c :: s' => if c =? ch then lstrip_char ch s' else s
  | [] => []
  end.

Definition rstrip_char (ch : char) (s : str) : str := rev (lstrip_char ch (rev s)).

(** ** Python values *)

Set Warnings "-register-all".

Inductive pyval :=
| PNone
| PBool (b : bool)
| PInt (z : Z)
| PFloat (f : float)
| PStr (s : str)
| PList (l : list pyval)
| PDict (d : list (str * pyval)).

(** A [dict] with [str] keys is kept as the list of its bindings; a key is
    bound once, and lookup takes the first binding. *)
Fixpoint assoc (k : str) (d : list (str * pyval)) : option pyval :=
  match d with
  | [] => None
  | (k', v) :: d' => if str_eqb k k' then Some v else assoc k d'
  end.

(** [bool(v)] *)
Definition truthy (v : pyval) : bool :=
  match v with
  | PNone => false
  | PBool b => b
  | PInt z => negb (z =? 0)%Z
  | PFloat f => negb (PrimFloat.eqb f PrimFloat.zero)
  | PStr s => match s with [] => false | _ => true end
  | PList l => match l with [] => false | _ => true end
  | PDict d => match d with [] => false | _ => true end
  end.

(** [a or b] *)
Definition py_or (a b : pyval) : pyval := if truthy a then a else b.

Declare Scope py_scope.
Delimit Scope py_scope with py.
Infix "|||" := py_or (at level 50, left associativity) : py_scope.

(** [v == "literal"] *)
Definition eq_str (v : pyval) (s : str) : bool :=
  match v with PStr s' => str_eqb s' s | _ => false end.

(** [type(v).__name__] *)
Definition type_name (v : pyval) : str :=
  match v with
  | PNone => lit "NoneType"
  | PBool _ => lit "bool"
  | PInt _ => lit "int"
  | PFloat _ => lit "float"
  | PStr _ => lit "str"
  | PList _ => lit "list"
  | PDict _ => lit "dict"
  end.

(** [attr(name)] of a pyquery selection: the attribute or [None]. *)
Definition of_attr (a : option str) : pyval :=
  match a with Some s => PStr s | None => PNone end.

(** ** [_clean] *)

Definition NBSP : char := 160.           (* U+00A0 *)
Definition A_CIRCUMFLEX : char := 194.   (* U+00C2 *)

Definition clean_str (s : str) : str :=
  strip (replace [A_CIRCUMFLEX] []
          (replace [NBSP] (lit " ")
            (replace (lit "\xa0") (lit " ") s))).

Definition _clean (s : pyval) : pyval :=
  match s with
  | PStr s => PStr (clean_str s)
  | _ => s
  end.

(** ** Exceptions *)

Record exn := Exn { exn_type : str; exn_msg : str }.

Inductive result (A : Type) :=
| Ok (a : A)
| Raise (e : exn).
Arguments Ok {A} a.
Arguments Raise {A} e.

#[global] Instance result_ret : MRet result := λ A a, Ok a.
#[global] Instance result_bind : MBind result := λ A B f r,
  match r with Ok a => f a | Raise e => Raise e end.
#[global] Instance result_fmap : FMap result := λ A B f r,
  match r with Ok a => Ok (f a) | Raise e => Raise e end.

Definition ValueError (msg : str) : exn := Exn (lit "ValueError") msg.
Definition TypeError (msg : str) : exn := Exn (lit "TypeError") msg.
Definition KeyError (msg : str) : exn := Exn (lit "KeyError") msg.
Definition IndexError (msg : str) : exn := Exn (lit "IndexError") msg.
Definition AttributeError (v : pyval) (name : str) : exn :=
  Exn (lit "AttributeError")
      (lit "'" ++ type_name v ++ lit "' object has no attribute '" ++ name ++ lit "'").

(** [d.get(k)] on a value known to be a dict. *)
Definition dict_get (d : list (str * pyval)) (k : str) : pyval :=
  default PNone (assoc k d).

(** [v.get(k, dflt)] on any value: only a [dict] has the method. *)
Definition py_get_default (v : pyval) (k : str) (dflt : pyval) : result pyval :=
  match v with
  | PDict d => Ok (default dflt (assoc k d))
  | _ => Raise (AttributeError v (lit "get"))
  end.

(** [v.get(k)] *)
Definition py_get (v : pyval) (k : str) : result pyval := py_get_default v k PNone.

(** [for x in v]: the elements a [for] loop visits. *)
Definition py_iter (v : pyval) : result (list pyval) :=
  match v with
  | PList l => Ok l
  | PStr s => Ok (map (λ c, PStr [c]) s)
  | PDict d => Ok (map (λ kv, PStr (fst kv)) d)
  | _ => Raise (TypeError (lit "'" ++ type_name v ++ lit "' object is not iterable"))
  end.

(** [v[:8]], then the elements the loop over it visits. *)
Definition py_slice8 (v : pyval) : result (list pyval) :=
  match v with
  | PList l => Ok (take 8 l)
  | PStr s => Ok (map (λ c, PStr [c]) (take 8 s))
  | PDict _ => Raise (TypeError (lit "unhashable type: 'slice'"))
  | _ => Raise (TypeError (lit "'" ++ type_name v ++ lit "' object is not subscriptable"))
  end.

(** [v[0]] *)
Definition py_index0 (v : pyval) : result pyval :=
  match v with
  | PList (x :: _) => Ok x
  | PList [] => Raise (IndexError (lit "list index out of range"))
  | PStr (c :: _) => Ok (PStr [c])
  | PStr [] => Raise (IndexError (lit "string index out of range"))
  | PDict _ => Raise (KeyError (lit "0"))
  | _ => Raise (TypeError (lit "'" ++ type_name v ++ lit "' object is not subscriptable"))
  end.

(** A loop whose body may raise: [for x in l: s = body(x, s)]. *)
Fixpoint for_each {A S : Type} (body : A → S → result S) (l : list A) (s : S)
  : result S :=
  match l with
  | [] => Ok s
  | x :: l' => s' ← body x s; for_each body l' s'
  end.

(** ** Pages and requests *)

(** A pyquery selection of one element: its own text, and for a selector the
    text and the attributes of the sub-selection. *)
Record element := Element {
  el_text : str;                              (* e.text() *)
  sub_text : str → str;                       (* e(sel).text() *)
  sub_attr : str → str → option str           (* e(sel).attr(name) *)
}.

(** A parsed page: [doc(sel).items()], in document order. *)
Definition document := str → list element.

Record request := Request {
  req_url : str;
  req_params : option (list (str * pyval))
}.

Record response := Response {
  resp_text : str;               (* r.text *)
  resp_json : result pyval       (* r.json() *)
}.

(** What the libraries answer.  [http_get] is [requests.get] followed by
    [raise_for_status]; its first argument is the log of the requests that
    were sent before this one. *)
Record libs := Libs {
  http_get : list request → request → result response;
  pq : str → result document;
  json_loads : str → result pyval;
  urljoin_rel : str → str → result str;   (* urljoin on two non-empty str *)
  quote_plus : str → result str;
  py_repr : pyval → str;                  (* str(v) of a value that is no str *)
  format_exc : exn → str                  (* traceback.format_exc() *)
}.

Record config := Config {
  TIME_URL : str;
  CITY_URL : str;
  READERS_URL : str;
  READERS_QUERY : str
}.

(** The values used when no environment variable overrides them. *)
Definition default_config : config := {|
  TIME_URL := lit "https://shop.timecenter.jo/collections/men-watches";
  CITY_URL := lit "https://citycenter.jo/pc-and-laptops/pc-and-laptops-laptops";
  READERS_URL := lit "https://www.readers.jo/";
  READERS_QUERY := lit "book"
|}.

(** The state of an extraction is the log of requests; it survives a raise. *)
Definition M (A : Type) : Type := list request → result A * list request.

#[global] Instance M_ret : MRet M := λ A a log, (Ok a, log).
#[global] Instance M_bind : MBind M := λ A B f m log,
  match m log with
  | (Ok a, log') => f a log'
  | (Raise e, log') => (Raise e, log')
  end.

Definition lift {A} (r : result A) : M A := λ log, (r, log).
Definition raise {A} (e : exn) : M A := lift (Raise e).

(** [try: m  except Exception: pass] around a body that may [return]:
    [Some v] when the body returned [v], [None] when control falls through. *)
Definition try_pass {A} (m : M (option A)) : M (option A) := λ log,
  match m log with
  | (Ok r, log') => (Ok r, log')
  | (Raise _, log') => (Ok None, log')
  end.

(** ** Items and site results *)

Record item := Item { title : pyval; price : pyval; href : pyval }.

Record site_result := SiteResult {
  source : str;
  items_count : nat;
  items_preview : list item;
  note : option str
}.

(** * [05_scrape_demo.py] *)

Module Scrape.
Section Scraper.

Variable L : libs.
Variable C : config.

Local Open Scope py_scope.

(** [str(v)], also what an f-string writes for [{v}]. *)
Definition py_str (v : pyval) : str :=
  match v with PStr s => s | _ => py_repr L v end.

Definition fetch (url : str) (params : option (list (str * pyval))) : M response :=
  λ log, let rq := Request url params in (http_get L log rq, log ++ [rq]).

(** [urljoin(base, url)]: an empty base gives [url] back, an empty (falsy)
    [url] gives the base, a [url] that is no [str] is refused, and two
    non-empty strings are resolved by the library. *)
Definition urljoin (base : str) (url : pyval) : result pyval :=
  match base with
  | [] => Ok url
  | _ =>
      if negb (truthy url) then Ok (PStr base)
      else match url with
           | PStr u => PStr <$> urljoin_rel L base u
           | _ => Raise (TypeError (lit "Cannot mix str and non-str arguments"))
           end
  end.

(** [for card in cards.items(): if len(items) >= 8: break; ...]: the body
    either appends one item or leaves [items] alone, or raises. *)
Fixpoint scan_cards (body : element → result (option item))
    (cards : list element) (items : list item) : result (list item) :=
  match cards with
  | [] => Ok items
  | card :: cards' =>
      if (8 <=? length items)%nat then Ok items
      else
        o ← body card;
        scan_cards body cards' (match o with Some it => items ++ [it] | None => items end)
  end.

(** ** City Center *)

Definition citycenter_card (card : element) : result (option item) :=
  let title := PStr (sub_text card (lit "h4 a"))
               ||| PStr (sub_text card (lit "h3 a"))
               ||| PStr (sub_text card (lit ".product-title a"))
               ||| PStr (sub_text card (lit ".title a"))
               ||| of_attr (sub_attr card (lit "a") (lit "title")) in
  let price := PStr (sub_text card (lit ".price .price-new"))
               ||| PStr (sub_text card (lit ".price"))
               ||| PStr (sub_text card (lit ".product-price"))
               ||| PStr (sub_text card (lit ".new-price"))
               ||| PStr (sub_text card (lit ".amount")) in
  let href := of_attr (sub_attr card (lit "h4 a") (lit "href"))
              ||| of_attr (sub_attr card (lit "h3 a") (lit "href"))
              ||| of_attr (sub_attr card (lit "a") (lit "href"))
              ||| PStr [] in
  if truthy title then
    h ← urljoin (CITY_URL C) href;
    Ok (Some {| title := _clean title; price := _clean price; href := h |})
  else Ok None.

Definition citycenter_selector : str :=
  lit "div.product, div.product-item, div.product-thumb, li.product, div.card, div.product-layout".

Definition citycenter_no_items : exn :=
  ValueError (lit "No product cards parsed on City Center page.").

Definition parse_citycenter_laptops : M site_result :=
  r ← fetch (CITY_URL C) None;
  doc ← lift (pq L (resp_text r));
  items ← lift (scan_cards citycenter_card (doc citycenter_selector) []);
  match items with
  | [] => raise citycenter_no_items
  | _ => mret {| source := CITY_URL C; items_count := length items;
                 items_preview := take 8 items; note := None |}
  end.

(** ** Time Center *)

Definition timecenter_products_prefix : str := lit "https://shop.timecenter.jo/products/".

(** The body of the loop over [products[:8]]. *)
Definition timecenter_product (p : pyval) (items : list item) : result (list item) :=
  title ← py_get p (lit "title");
  handle ← py_get p (lit "handle");
  v ← py_get p (lit "variants");
  let variants := v ||| PList [] in
  price ← (if truthy variants
           then v0 ← py_index0 variants; py_get v0 (lit "price")
           else Ok PNone);
  let href := if truthy handle
              then PStr (timecenter_products_prefix ++ py_str handle)
              else PStr (TIME_URL C) in
  if truthy title then
    Ok (items ++ [ {| title := _clean title;
                      price := _clean (PStr (match price with
                                             | PNone => []
                                             | _ => py_str price
                                             end));
                      href := href |} ])
  else Ok items.

Definition prod_json_url : str :=
  let base := rstrip_char 47 (split_head 63 (TIME_URL C)) in   (* "/" and "?" *)
  if contains (lit "/collections/") base
  then base ++ lit "/products.json"
  else lit "https://shop.timecenter.jo/products.json".

Definition prod_json_request : request :=
  Request prod_json_url (Some [(lit "limit", PInt 12)]).

(** The [try] block up to the end of its loop: the items of the JSON tier. *)
Definition timecenter_json_items : M (list item) :=
  r ← fetch (req_url prod_json_request) (req_params prod_json_request);
  data ← lift (resp_json r);
  products ← lift (py_get_default data (lit "products")
                     (match data with PList _ => data | _ => PList [] end));
  ps ← lift (py_slice8 products);
  lift (for_each timecenter_product ps []).

(** The whole [try] block: [Some] is the [return] inside it. *)
Definition timecenter_json_tier : M (option site_result) :=
  items ← timecenter_json_items;
  match items with
  | [] => mret None
  | _ => mret (Some {| source := prod_json_url; items_count := length items;
                       items_preview := items; note := None |})
  end.

Definition timecenter_card (card : element) : result (option item) :=
  let title := of_attr (sub_attr card (lit "h3 a") (lit "title"))
               ||| PStr (sub_text card (lit "h3 a"))
               ||| PStr (sub_text card (lit ".card__heading a"))
               ||| PStr (sub_text card (lit ".product-item__title a"))
               ||| PStr (sub_text card (lit ".product-title a")) in
  let price := PStr (sub_text card (lit ".price-item--regular"))
               ||| PStr (sub_text card (lit ".price__current"))
               ||| PStr (sub_text card (lit ".price .price-item"))
               ||| PStr (sub_text card (lit ".money"))
               ||| PStr (sub_text card (lit ".price")) in
  let href := of_attr (sub_attr card (lit "a") (lit "href")) ||| PStr [] in
  if truthy title then
    h ← urljoin (TIME_URL C) href;
    Ok (Some {| title := _clean title; price := _clean price; href := h |})
  else Ok None.

Definition timecenter_selector : str :=
  lit "article.product, article.product-card, div.product-item, div.grid__item, div.card".

Definition timecenter_no_items : exn :=
  ValueError (lit "No product items from Shopify JSON nor HTML on Time Center.").

Definition timecenter_html_tier : M site_result :=
  r ← fetch (TIME_URL C) None;
  doc ← lift (pq L (resp_text r));
  items ← lift (scan_cards timecenter_card (doc timecenter_selector) []);
  match items with
  | [] => raise timecenter_no_items
  | _ => mret {| source := TIME_URL C; items_count := length items;
                 items_preview := take 8 items; note := None |}
  end.

Definition parse_timecenter_shopify : M site_result :=
  early ← try_pass timecenter_json_tier;
  match early with
  | Some res => mret res
  | None => timecenter_html_tier
  end.

(** ** Readers *)

Definition push_product (base : str) (obj : pyval) (items : list item)
  : result (list item) :=
  match obj with
  | PDict d =>
      let title := dict_get d (lit "name") in
      let offers := dict_get d (lit "offers") ||| PDict [] in
      price ← match offers with
              | PDict o =>
                  let p := dict_get o (lit "price") in
                  if truthy p then Ok p
                  else py_get (dict_get o (lit "priceSpecification") ||| PDict [])
                              (lit "price")
              | _ => Ok PNone
              end;
      let url := dict_get d (lit "url") ||| PStr [] in
      if truthy title then
        h ← urljoin base url;
        Ok (items ++ [ {| title := _clean title;
                          price := _clean (PStr (match price with
                                                 | PNone => []
                                                 | _ => py_str price
                                                 end));
                          href := h |} ])
      else Ok items
  | _ => Ok items
  end.

(** [for li in node.get("itemListElement", []): if isinstance(li, dict): ...] *)
Definition push_list_element (base : str) (li : pyval) (items : list item)
  : result (list item) :=
  match li with
  | PDict ld => push_product base (dict_get ld (lit "item") ||| li) items
  | _ => Ok items
  end.

(** What is done with one node, [data] itself or an entry of the list
    [data]: the source writes these lines out twice. *)
Definition jsonld_node (base : str) (node : pyval) (items : list item)
  : result (list item) :=
  match node with
  | PDict d =>
      let ty := dict_get d (lit "@type") in
      if eq_str ty (lit "Product") then push_product base node items
      else if eq_str ty (lit "ItemList") then
        lis ← py_iter (default (PList []) (assoc (lit "itemListElement") d));
        for_each (push_list_element base) lis items
      else Ok items
  | _ => Ok items
  end.

Definition jsonld_script (base : str) (script : element) (items : list item)
  : result (list item) :=
  match json_loads L (el_text script) with
  | Raise _ => Ok items                                   (* continue *)
  | Ok data =>
      match data with
      | PList entries => for_each (jsonld_node base) entries items
      | PDict _ => jsonld_node base data items
      | _ => Ok items
      end
  end.

Definition readers_card (base : str) (card : element) : result (option item) :=
  let title := PStr (sub_text card (lit ".caption h4 a"))
               ||| PStr (sub_text card (lit "h4 a"))
               ||| PStr (sub_text card (lit ".name a"))
               ||| PStr (sub_text card (lit "h3 a"))
               ||| of_attr (sub_attr card (lit "a") (lit "title")) in
  let price := PStr (sub_text card (lit ".price .price-new"))
               ||| PStr (sub_text card (lit ".price .price-old"))
               ||| PStr (sub_text card (lit ".price"))
               ||| PStr (sub_text card (lit ".product-price")) in
  let href := of_attr (sub_attr card (lit ".caption h4 a") (lit "href"))
              ||| of_attr (sub_attr card (lit "h4 a") (lit "href"))
              ||| of_attr (sub_attr card (lit "a") (lit "href"))
              ||| PStr [] in
  if truthy title then
    h ← urljoin base href;
    Ok (Some {| title := _clean title; price := _clean price; href := h |})
  else Ok None.

Definition DQUOTE : char := 34.

Definition jsonld_selector : str :=
  lit "script[type=" ++ [DQUOTE] ++ lit "application/ld+json" ++ [DQUOTE] ++ lit "]".

Definition readers_selector : str :=
  lit "div.product-thumb, div.product-layout, li.product, div.product-grid-item, div.product".

(** Pass 1 of [_readers_extract_from_doc]: the JSON-LD blocks. *)
Definition readers_jsonld_pass (doc : document) (base : str) : result (list item) :=
  for_each (jsonld_script base) (doc jsonld_selector) [].

(** Pass 2: the HTML cards, entered with the items of pass 1. *)
Definition readers_html_pass (doc : document) (base : str) (items : list item)
  : result (list item) :=
  if (length items <? 8)%nat
  then scan_cards (readers_card base) (doc readers_selector) items
  else Ok items.

Definition _readers_extract_from_doc (doc : document) (base : str)
  : result (list item) :=
  items ← readers_jsonld_pass doc base;
  readers_html_pass doc base items.

Definition readers_search_prefix : str :=
  lit "https://www.readers.jo/index.php?route=product/search&search=".

Definition readers_no_items : exn :=
  ValueError (lit "No product cards or JSON-LD products found on Readers (homepage and search).").

Definition readers_note : str :=
  lit "Search fallback for '" ++ READERS_QUERY C ++ lit "'".

(** Fetch, parse and extract one page (the three lines [parse_readers] runs
    on the configured page and again on the search page). *)
Definition readers_page (url : str) : M (list item) :=
  r ← fetch url None;
  doc ← lift (pq L (resp_text r));
  lift (_readers_extract_from_doc doc url).

Definition parse_readers : M site_result :=
  r ← fetch (READERS_URL C) None;
  doc ← lift (pq L (resp_text r));
  items ← lift (_readers_extract_from_doc doc (READERS_URL C));
  match items with
  | [] =>
      q ← lift (quote_plus L (READERS_QUERY C));
      let search_url := readers_search_prefix ++ q in
      r ← fetch search_url None;
      doc ← lift (pq L (resp_text r));
      items ← lift (_readers_extract_from_doc doc search_url);
      match items with
      | _ :: _ => mret {| source := search_url; items_count := length items;
                          items_preview := take 8 items;
                          note := Some readers_note |}
      | [] => raise readers_no_items
      end
  | _ => mret {| source := READERS_URL C; items_count := length items;
                 items_preview := take 8 items; note := None |}
  end.

(** ** The orchestrator *)

(** A value of the combined mapping: a site's record, or a text (an error
    line or a trace). *)
Inductive out_value :=
| Site (r : site_result)
| Text (s : str).

Definition steps : list (str * M site_result) :=
  [ (lit "citycenter", parse_citycenter_laptops);
    (lit "timecenter", parse_timecenter_shopify);
    (lit "readers", parse_readers) ].

(** [f"{type(e).__name__}: {e}"] *)
Definition error_line (e : exn) : str := exn_type e ++ lit ": " ++ exn_msg e.

(** The three extractors by site, for statements about all of them. *)
Inductive site := CityCenter | TimeCenter | Readers.

Definition extractor (s : site) : M site_result :=
  match s with
  | CityCenter => parse_citycenter_laptops
  | TimeCenter => parse_timecenter_shopify
  | Readers => parse_readers
  end.

(** [main] runs on a world: the requests sent so far, the lines handed to
    [print] so far, and the files. *)
Record world := World {
  sent : list request;
  prints : list str;
  files : gmap str str
}.

(** What [json.dump] does inside the [with] block: it writes the whole text,
    or it raises with [written] in the file. *)
Inductive dump_outcome :=
| Dumped (text : str)
| DumpFailed (e : exn) (written : str).

(** What the operating system answers to [main]: whether the directory can
    be made, whether a line can be printed (after the lines handed to
    [print] before it), whether the file can be opened for writing, what
    [json.dump] does with the mapping, and the absolute form of a path. *)
Record os_env := OsEnv {
  os_makedirs : str → result unit;
  os_print : list str → str → result unit;
  open_w : str → result unit;
  json_dump : gmap str out_value → dump_outcome;
  os_abspath : str → result str
}.

Variable O : os_env.

(** [main] and its loop act on the world and may raise. *)
Definition W (A : Type) : Type := world → result A * world.

(** [log(m)]: [print(m, flush=True)]. *)
Definition log (m : str) : W unit := λ w,
  (os_print O (prints w) m, World (sent w) (prints w ++ [m]) (files w)).

(** [fn()] for an extractor: it acts on the log of requests. *)
Definition call (fn : M site_result) : W site_result := λ w,
  match fn (sent w) with
  | (res, lg) => (res, World lg (prints w) (files w))
  end.

(** The [except Exception as e] branch of the loop of [main], entered with
    the mapping as the [try] block left it; its print is not guarded. *)
Definition handle (name : str) (e : exn) (out : gmap str out_value)
  : W (gmap str out_value) := λ w,
  match log (lit "ERR: " ++ name ++ lit ": " ++ error_line e) w with
  | (Raise e', w') => (Raise e', w')
  | (Ok _, w') =>
      (Ok (<[name ++ lit "_trace" := Text (format_exc L e)]>
            (<[name ++ lit "_error" := Text (error_line e)]> out)), w')
  end.

(** One turn of the loop of [main]: the [try] block, in which the two prints
    and the extractor may raise, and its handler. *)
Definition run_step (name : str) (fn : M site_result) (out : gmap str out_value)
  : W (gmap str out_value) := λ w,
  match log (lit "running step: " ++ name) w with
  | (Raise e, w1) => handle name e out w1
  | (Ok _, w1) =>
      match call fn w1 with
      | (Raise e, w2) => handle name e out w2
      | (Ok v, w2) =>
          let out1 := <[name := Site v]> out in
          match log (lit "OK: " ++ name) w2 with
          | (Raise e, w3) => handle name e out1 w3
          | (Ok _, w3) => (Ok out1, w3)
          end
      end
  end.

Fixpoint run_steps (l : list (str * M site_result)) (out : gmap str out_value)
  : W (gmap str out_value) := λ w,
  match l with
  | [] => (Ok out, w)
  | (name, fn) :: l' =>
      match run_step name fn out w with
      | (Ok out', w') => run_steps l' out' w'
      | (Raise e, w') => (Raise e, w')
      end
  end.

Definition OUT_DIR : str := lit "artifacts/reports".
Definition OUT_JSON : str := lit "artifacts/reports/scraped_excerpt.json".

(** [with open(OUT_JSON, "w", encoding="utf-8") as f: json.dump(out, f, ...)]:
    a failed [open] leaves the file alone; after a successful one the file
    holds what [json.dump] wrote, the whole text or what was written when it
    raised. *)
Definition write_out (out : gmap str out_value) : W unit := λ w,
  match open_w O OUT_JSON with
  | Raise e => (Raise e, w)
  | Ok _ =>
      match json_dump O out with
      | Dumped text =>
          (Ok (), World (sent w) (prints w) (<[OUT_JSON := text]> (files w)))
      | DumpFailed e written =>
          (Raise e, World (sent w) (prints w) (<[OUT_JSON := written]> (files w)))
      end
  end.

Definition main : W unit := λ w,
  match os_makedirs O OUT_DIR with
  | Raise e => (Raise e, w)
  | Ok _ =>
      match run_steps steps ∅ w with
      | (Raise e, w1) => (Raise e, w1)
      | (Ok out, w1) =>
          match write_out out w1 with
          | (Raise e, w2) => (Raise e, w2)
          | (Ok _, w2) =>
              match os_abspath O OUT_JSON with
              | Raise e => (Raise e, w2)
              | Ok path => log (lit "saved -> " ++ path) w2
              end
          end
      end
  end.

End Scraper.
End Scrape.

(** * [01_load_clean.py]: the column labels *)

Module LoadClean.
Section LoadClean.

(** [str.lower], as the library computes it. *)
Variable lower : str → str.

(** The value the comprehension of [normalize_columns] binds to the label
    [c]: [c.strip().lower().replace(" ", "_").replace("-", "_")]. *)
Definition normalize_label (c : str) : str :=
  replace (lit "-") (lit "_") (replace (lit " ") (lit "_") (lower (strip c))).

(** [df.rename(columns=cols)], on the labels of the frame: every label is a
    key of [cols], so every label is replaced by its value. *)
Definition normalize_columns (columns : list str) : list str :=
  map normalize_label columns.

End LoadClean.
End LoadClean.

(** * Absolute URLs

    A URL is absolute when it starts with a scheme: a letter, then letters,
    digits, [+], [-] and [.], up to a colon (RFC 3986, section 3.1). *)

Definition is_alpha (c : char) : bool :=
  ((65 <=? c) && (c <=? 90)) || ((97 <=? c) && (c <=? 122)).

Definition is_scheme_char (c : char) : bool :=
  is_alpha c || ((48 <=? c) && (c <=? 57)) || (c =? 43) || (c =? 45) || (c =? 46).

Fixpoint scheme_rest (u : str) : bool :=
  match u with
  | [] => false
  | c :: u' => if c =? 58 then true else is_scheme_char c && scheme_rest u'
  end.

Definition has_scheme (u : str) : bool :=
  match u with
  | [] => false
  | c :: u' => is_alpha c && scheme_rest u'
  end.

(** * Concrete pages

    A small web to run the extractors on: a page is identified by its URL,
    the text of a response is that URL, and [pq] and [json_loads] look the
    text up. *)

Module Fixtures.
Import Scrape.

Definition http_404 : exn := Exn (lit "HTTPError") (lit "404 Client Error: Not Found").
Definition not_json : exn := Exn (lit "JSONDecodeError") (lit "Expecting value: line 1 column 1 (char 0)").

Record page := Page { page_doc : document; page_json : result pyval }.

Definition fixture_libs (web : str → option page) (loads : str → result pyval) : libs := {|
  http_get := λ _ rq,
    match web (req_url rq) with
    | Some pg => Ok (Response (req_url rq) (page_json pg))
    | None => Raise http_404
    end;
  pq := λ text,
    match web text with
    | Some pg => Ok (page_doc pg)
    | None => Raise (Exn (lit "ParserError") (lit "Document is empty"))
    end;
  json_loads := loads;
  urljoin_rel := λ base u, Ok (if startswith (lit "http") u then u else base ++ u);
  quote_plus := λ q, Ok q;
  py_repr := λ v, match v with PInt 1984 => lit "1984" | _ => lit "<repr>" end;
  format_exc := λ e, lit "Traceback (most recent call last): " ++ exn_type e
|}.

Definition fixture_os : os_env := {|
  os_makedirs := λ _, Ok ();
  os_print := λ _ _, Ok ();
  open_w := λ _, Ok ();
  json_dump := λ out, Dumped (lit "{" ++ concat (map fst (map_to_list out)) ++ lit "}");
  os_abspath := λ path, Ok (lit "/srv/" ++ path)
|}.

(** An element that answers [text] on one selector and [attr] on one
    selector and attribute name. *)
Definition html_card (tsel t : str) (asel aname : str) (a : option str) : element := {|
  el_text := t;
  sub_text := λ sel, if str_eqb sel tsel then t else [];
  sub_attr := λ sel name, if str_eqb sel asel && str_eqb name aname then a else None
|}.

Definition h4_card (t : str) (link : str) : element :=
  html_card (lit "h4 a") t (lit "a") (lit "href") (Some link).

Definition script_block (body : str) : element := {|
  el_text := body; sub_text := λ _, []; sub_attr := λ _ _, None
|}.

Definition html_page (sel : str) (cards : list element) : page :=
  Page (λ s, if str_eqb s sel then cards else []) (Raise not_json).

Definition json_page (data : pyval) : page := Page (λ _, []) (Ok data).

Definition at_url (url : str) (pg : page) (rest : str → option page) : str → option page :=
  λ u, if str_eqb u url then Some pg else rest u.

Definition offline : str → option page := λ _, None.
Definition no_loads : str → result pyval := λ _, Raise not_json.

Definition product (name : pyval) (url : str) : pyval :=
  PDict [(lit "@type", PStr (lit "Product")); (lit "name", name); (lit "url", PStr url)].

(** A Readers home page whose one JSON-LD block lists nine products. *)
Definition nine_products : pyval :=
  PDict [(lit "@type", PStr (lit "ItemList"));
         (lit "itemListElement",
          PList (map (λ n, PDict [(lit "item", product (PStr (lit "Book " ++ [48 + n])) (lit "/b"))])
                     [1; 2; 3; 4; 5; 6; 7; 8; 9]))].

Definition nine_products_libs : libs :=
  fixture_libs
    (at_url (READERS_URL default_config)
            (html_page jsonld_selector [script_block (lit "nine")]) offline)
    (λ body, if str_eqb body (lit "nine") then Ok nine_products else Raise not_json).

(** A Readers home page whose JSON-LD block names a product by a number. *)
Definition numeric_name_libs : libs :=
  fixture_libs
    (at_url (READERS_URL default_config)
            (html_page jsonld_selector [script_block (lit "1984")]) offline)
    (λ body, if str_eqb body (lit "1984")
             then Ok (product (PInt 1984) (lit "/1984")) else Raise not_json).

(** A City Center page with one card whose only title is the attribute
    [title=" "] of its link. *)
Definition blank_title_libs : libs :=
  fixture_libs
    (at_url (CITY_URL default_config)
            (html_page citycenter_selector
               [html_card [] [] (lit "a") (lit "title") (Some (lit " "))]) offline)
    no_loads.

(** A City Center page with three cards. *)
Definition three_cards_page : page :=
  html_page citycenter_selector
    [h4_card (lit "Laptop A") (lit "/a"); h4_card (lit "Laptop B") (lit "/b");
     h4_card (lit "Laptop C") (lit "/c")].

Definition three_cards_libs : libs :=
  fixture_libs (at_url (CITY_URL default_config) three_cards_page offline) no_loads.

(** A Time Center JSON endpoint with five products. *)
Definition shopify_product (t h : str) : pyval :=
  PDict [(lit "title", PStr t); (lit "handle", PStr h);
         (lit "variants", PList [PDict [(lit "price", PStr (lit "45.00"))]])].

Definition five_products_libs : libs :=
  fixture_libs
    (at_url (prod_json_url default_config)
            (json_page (PDict [(lit "products",
               PList [shopify_product (lit "W1") (lit "w1"); shopify_product (lit "W2") (lit "w2");
                      shopify_product (lit "W3") (lit "w3"); shopify_product (lit "W4") (lit "w4");
                      shopify_product (lit "W5") (lit "w5")])])) offline)
    no_loads.

(** A Readers home page with nothing to extract and a search page with one
    card. *)
Definition search_url : str := readers_search_prefix ++ lit "book".

Definition search_fallback_libs : libs :=
  fixture_libs
    (at_url (READERS_URL default_config) (html_page [] [])
       (at_url search_url
               (html_page readers_selector [h4_card (lit "A Book") (lit "/book")]) offline))
    no_loads.

(** A Readers page with one product in JSON-LD and one HTML card. *)
Definition mixed_doc : document :=
  λ sel, if str_eqb sel jsonld_selector then [script_block (lit "dune")]
         else if str_eqb sel readers_selector then [h4_card (lit "A Book") (lit "/book")]
         else [].

Definition mixed_libs : libs :=
  fixture_libs offline
    (λ body, if str_eqb body (lit "dune")
             then Ok (product (PStr (lit "Dune")) (lit "/dune")) else Raise not_json).

(** Nothing answers: every fetch raises. *)
Definition offline_libs : libs := fixture_libs offline no_loads.

(** The library of the fixtures, except that [urljoin] refuses a link that
    opens a bracket in its host and never closes it. *)
Definition invalid_ipv6 : exn := ValueError (lit "Invalid IPv6 URL").

Definition picky_libs (web : str → option page) (loads : str → result pyval) : libs := {|
  http_get := http_get (fixture_libs web loads);
  pq := pq (fixture_libs web loads);
  json_loads := loads;
  urljoin_rel := λ base u,
    if startswith (lit "//[") u then Raise invalid_ipv6
    else urljoin_rel (fixture_libs web loads) base u;
  quote_plus := quote_plus (fixture_libs web loads);
  py_repr := py_repr (fixture_libs web loads);
  format_exc := format_exc (fixture_libs web loads)
|}.

(** Nine cards with a title, and one whose link is refused. *)
Definition nine_cards : list element :=
  map (λ n, h4_card (lit "Laptop " ++ [48 + n]) (lit "/p" ++ [48 + n]))
      [1; 2; 3; 4; 5; 6; 7; 8; 9].

Definition bad_link_card : element := h4_card (lit "Laptop X") (lit "//[").

(** A card without any title. *)
Definition untitled_card : element := html_card [] [] (lit "a") (lit "href") (Some (lit "/u")).

(** A products endpoint that answers with an array of products rather than
    an object, and a listing page with one card. *)
Definition array_endpoint_libs : libs :=
  fixture_libs
    (at_url (prod_json_url default_config)
            (json_page (PList [shopify_product (lit "W1") (lit "w1")]))
       (at_url (TIME_URL default_config)
               (html_page timecenter_selector
                  [html_card (lit "h3 a") (lit "Watch") (lit "a") (lit "href")
                     (Some (lit "/watch"))]) offline))
    no_loads.

(** Two Readers pages that differ by one block that is no JSON. *)
Definition dune_block : element := script_block (lit "dune").
Definition broken_block : element := script_block (lit "{not json").

Definition doc_with_scripts (scripts : list element) : document :=
  λ sel, if str_eqb sel jsonld_selector then scripts else [].

(** A file system on which the output file cannot be opened for writing. *)
Definition permission_denied : exn :=
  Exn (lit "PermissionError") (lit "[Errno 13] Permission denied").

Definition readonly_os : os_env := {|
  os_makedirs := λ _, Ok ();
  os_print := λ _ _, Ok ();
  open_w := λ _, Raise permission_denied;
  json_dump := json_dump fixture_os;
  os_abspath := os_abspath fixture_os
|}.

(** A JSON-LD block whose item list is [null], after a block with a
    product. *)
Definition null_list_block : element := script_block (lit "null-list").

Definition null_list_libs : libs :=
  fixture_libs offline
    (λ body, if str_eqb body (lit "dune")
             then Ok (product (PStr (lit "Dune")) (lit "/dune"))
             else if str_eqb body (lit "null-list")
             then Ok (PDict [(lit "@type", PStr (lit "ItemList"));
                             (lit "itemListElement", PNone)])
             else Raise not_json).

(** The library of the fixtures with the two libraries' treatment of
    schemes: [requests] refuses a URL without a scheme, and [urljoin] keeps
    a link that has a scheme of its own. *)
Definition missing_schema : exn :=
  Exn (lit "MissingSchema") (lit "Invalid URL: No scheme supplied.").

Definition strict_libs (web : str → option page) (loads : str → result pyval) : libs := {|
  http_get := λ log rq,
    if has_scheme (req_url rq) then http_get (fixture_libs web loads) log rq
    else Raise missing_schema;
  pq := pq (fixture_libs web loads);
  json_loads := loads;
  urljoin_rel := λ base u, Ok (if has_scheme u then u else base ++ u);
  quote_plus := quote_plus (fixture_libs web loads);
  py_repr := py_repr (fixture_libs web loads);
  format_exc := format_exc (fixture_libs web loads)
|}.

(** The three cards of City Center again, under the strict library. *)
Definition strict_three_cards_libs : libs :=
  strict_libs (at_url (CITY_URL default_config) three_cards_page offline) no_loads.

(** The default products endpoint answers with one product that has a
    number for its title and no handle. *)
Definition default_endpoint : str := lit "https://shop.timecenter.jo/products.json".

Definition handleless_libs : libs :=
  strict_libs
    (at_url default_endpoint
            (json_page (PDict [(lit "products",
               PList [PDict [(lit "title", PInt 1984)]])])) offline)
    no_loads.

(** [SCRAPE_TIME_URL] set without its scheme, and set to the empty string. *)
Definition with_time_url (u : str) : config := {|
  CITY_URL := CITY_URL default_config;
  TIME_URL := u;
  READERS_URL := READERS_URL default_config;
  READERS_QUERY := READERS_QUERY default_config
|}.

Definition blank_config : config := with_time_url [].

(** Standard output is a pipe whose reader leaves after the first line:
    every later print raises. *)
Definition broken_pipe : exn := Exn (lit "BrokenPipeError") (lit "[Errno 32] Broken pipe").

Definition broken_pipe_os : os_env := {|
  os_makedirs := λ _, Ok ();
  os_print := λ before _, match before with [] => Ok () | _ => Raise broken_pipe end;
  open_w := λ _, Ok ();
  json_dump := json_dump fixture_os;
  os_abspath := os_abspath fixture_os
|}.

(** Standard output is a pipe that is full at the second print and has been
    emptied by the third. *)
Definition would_block : exn :=
  Exn (lit "BlockingIOError") (lit "[Errno 11] write could not complete without blocking").

Definition flaky_print_os : os_env := {|
  os_makedirs := λ _, Ok ();
  os_print := λ before _, if (length before =? 1)%nat then Raise would_block else Ok ();
  open_w := λ _, Ok ();
  json_dump := json_dump fixture_os;
  os_abspath := os_abspath fixture_os
|}.

(** A file opened with the UTF-8 codec: [json.dump] raises at a lone
    surrogate, after it has written the opening brace. *)
Definition is_surrogate (c : char) : bool := (55296 <=? c) && (c <=? 57343).

Definition titles_of (v : out_value) : str :=
  match v with
  | Site r => concat (map (λ it, match title it with PStr t => t | _ => [] end)
                          (items_preview r))
  | Text t => t
  end.

Definition surrogates_not_allowed : exn :=
  Exn (lit "UnicodeEncodeError") (lit "'utf-8' codec can't encode character: surrogates not allowed").

Definition utf8_os : os_env := {|
  os_makedirs := λ _, Ok ();
  os_print := λ _ _, Ok ();
  open_w := λ _, Ok ();
  json_dump := λ out,
    if existsb is_surrogate (concat (map (λ kv, titles_of kv.2) (map_to_list out)))
    then DumpFailed surrogates_not_allowed (lit "{")
    else json_dump fixture_os out;
  os_abspath := os_abspath fixture_os
|}.

(** A City Center page with one card whose title is a lone surrogate. *)
Definition surrogate_libs : libs :=
  fixture_libs
    (at_url (CITY_URL default_config)
            (html_page citycenter_selector [h4_card [55296] (lit "/s")]) offline)
    no_loads.

End Fixtures.

(** * The vocabulary of the statements *)

Import Scrape.
Close Scope N_scope.

(** An item made on a page with base URL [base]: its title is the cleanup of
    a truthy raw title, its href is [urljoin] of the base and the link. *)
Definition made_on_page (L : libs) (base : str) (it : item) : Prop :=
  ∃ raw link, truthy raw = true ∧ title it = _clean raw
              ∧ urljoin L base link = Ok (href it).

(** An item made of a product of the Time Center JSON endpoint: its href is
    the product URL of a truthy handle, or else the configured listing URL. *)
Definition made_of_product (L : libs) (C : config) (it : item) : Prop :=
  ∃ raw, truthy raw = true ∧ title it = _clean raw
         ∧ (href it = PStr (TIME_URL C)
            ∨ ∃ handle, truthy handle = true
                        ∧ href it = PStr (timecenter_products_prefix ++ py_str L handle)).

(** What [urljoin] makes of a non-empty link on base [b] is not empty. *)
Definition resolves_nonempty (L : libs) (b : str) : Prop :=
  ∀ u h, u ≠ [] → urljoin_rel L b u = Ok h → h ≠ [].

(** What one site leaves in the combined mapping: its record, or the two
    entries of its failure. *)
Definition add_site (L : libs) (name : str) (res : result site_result)
    (out : gmap str out_value) : gmap str out_value :=
  match res with
  | Ok v => <[name := Site v]> out
  | Raise e => <[name ++ lit "_trace" := Text (format_exc L e)]>
                 (<[name ++ lit "_error" := Text (error_line e)]> out)
  end.

Definition combined (L : libs) (r1 r2 r3 : result site_result) : gmap str out_value :=
  add_site L (lit "readers") r3
    (add_site L (lit "timecenter") r2
       (add_site L (lit "citycenter") r1 ∅)).

(** The keys of one site's entry. *)
Definition site_keys (name : str) (res : result site_result) : gset str :=
  match res with
  | Ok _ => {[ name ]}
  | Raise _ => {[ name ++ lit "_error"; name ++ lit "_trace" ]}
  end.

(** The requests one site's extractor may send, in order. *)
Definition site_requests (L : libs) (C : config) (s : site) (new : list request) : Prop :=
  match s with
  | CityCenter => new = [Request (CITY_URL C) None]
  | TimeCenter => new = [prod_json_request C]
                  ∨ new = [prod_json_request C; Request (TIME_URL C) None]
  | Readers => new = [Request (READERS_URL C) None]
               ∨ ∃ q, quote_plus L (READERS_QUERY C) = Ok q
                      ∧ new = [Request (READERS_URL C) None;
                               Request (readers_search_prefix ++ q) None]
  end.

(** A JSON-LD block the Readers extraction passes over: its text is no JSON,
    or it is JSON that is neither an array nor an object, or an object whose
    [@type] is neither [Product] nor [ItemList]. *)
Definition passed_over (L : libs) (script : element) : Prop :=
  match json_loads L (el_text script) with
  | Raise _ => True
  | Ok (PList _) => False
  | Ok (PDict d) =>
      eq_str (dict_get d (lit "@type")) (lit "Product") = false
      ∧ eq_str (dict_get d (lit "@type")) (lit "ItemList") = false
  | Ok _ => True
  end.

(** A value that is a [str]. *)
Definition is_str (v : pyval) : Prop := ∃ s, v = PStr s.

(** A value that is a [str] if it is truthy. *)
Definition str_if_truthy (v : pyval) : Prop := truthy v = true → is_str v.



(** [requests] fetches absolute URLs only. *)
Definition fetches_absolute (L : libs) : Prop :=
  ∀ log rq rsp, http_get L log rq = Ok rsp → has_scheme (req_url rq) = true.

(** On a base that [requests] fetched, [urljoin] resolves a non-empty link
    to an absolute URL. *)
Definition joins_absolute (L : libs) : Prop :=
  ∀ log rq rsp, http_get L log rq = Ok rsp →
  ∀ u h, u ≠ [] → urljoin_rel L (req_url rq) u = Ok h → has_scheme h = true.

(** [requests] does not fetch the empty URL. *)
Definition fetches_nonempty (L : libs) : Prop :=
  ∀ log rq rsp, http_get L log rq = Ok rsp → req_url rq ≠ [].

(** On a base that [requests] fetched, [urljoin] resolves a non-empty link
    to a non-empty URL. *)
Definition joins_nonempty (L : libs) : Prop :=
  ∀ log rq rsp, http_get L log rq = Ok rsp → resolves_nonempty L (req_url rq).

(** The lines [main] hands to [print] for one site when no print raises. *)
Definition site_lines (name : str) (res : result site_result) : list str :=
  [ lit "running step: " ++ name;
    match res with
    | Ok _ => lit "OK: " ++ name
    | Raise e => lit "ERR: " ++ name ++ lit ": " ++ error_line e
    end ].

(** The lines [main] hands to [print] for the three sites. *)
Definition run_lines (r1 r2 r3 : result site_result) : list str :=
  site_lines (lit "citycenter") r1 ++ site_lines (lit "timecenter") r2
  ++ site_lines (lit "readers") r3.

(** * Properties of the scraping step *)

(** ** The string helpers at work *)

Example clean_strips_and_replaces :
  clean_str (lit "  Laptop" ++ [NBSP] ++ lit "A" ++ [A_CIRCUMFLEX] ++ lit "\xa0 ")
  = lit "Laptop A".
Proof. vm_compute. reflexivity. Qed.

Example clean_passes_non_strings : _clean PNone = PNone ∧ _clean (PInt 7) = PInt 7.
Proof. split; reflexivity. Qed.

Example prod_json_url_default :
  prod_json_url default_config
  = lit "https://shop.timecenter.jo/collections/men-watches/products.json".
Proof. vm_compute. reflexivity. Qed.

Example prod_json_url_no_collection :
  prod_json_url {| TIME_URL := lit "https://shop.timecenter.jo/?page=2";
                   CITY_URL := []; READERS_URL := []; READERS_QUERY := [] |}
  = lit "https://shop.timecenter.jo/products.json".
Proof. vm_compute. reflexivity. Qed.


#[local] Arguments Nat.leb : simpl never.
#[local] Arguments Nat.ltb : simpl never.

Create HintDb monad_ops.
#[local] Hint Unfold mbind mret fmap M_bind M_ret result_bind result_ret result_fmap
  lift raise fetch try_pass : monad_ops.

(** Unfold the monadic plumbing of a hypothesis and split on every call it
    depends on, keeping the equations. *)
Ltac split_calls H :=
  autounfold with monad_ops in H; simpl in H;
  repeat match type of H with
         | context [match ?x with _ => _ end] =>
             let E := fresh "E" in destruct x eqn:E; simpl in H; try discriminate H
         end.

Ltac invert H := inversion H; subst; clear H.

Section LoopFacts.

Context {A S : Type}.

(** A loop that stops on the first raise preserves every invariant that its
    body preserves. *)
Lemma for_each_invariant (P : S → Prop) (body : A → S → result S) l s s' :
  (∀ x s1 s2, P s1 → body x s1 = Ok s2 → P s2) →
  P s → for_each body l s = Ok s' → P s'.
Proof.
  intros Hbody. revert s. induction l as [|x l IH]; intros s Hs H; simpl in H.
  - by invert H.
  - split_calls H. eapply IH; [|exact H]. eauto.
Qed.

End LoopFacts.

Section ScanFacts.

Variable body : element → result (option item).

(** The card loop only appends, and what it appends are the items its body
    made of cards of the page. *)
Lemma scan_cards_appends cards items items' :
  scan_cards body cards items = Ok items' →
  ∃ new, items' = items ++ new
         ∧ Forall (λ it, ∃ card, card ∈ cards ∧ body card = Ok (Some it)) new.
Proof.
  revert items. induction cards as [|card cards IH]; intros items H; simpl in H.
  - invert H. exists []. split; [by rewrite app_nil_r | constructor].
  - destruct (8 <=? length items)%nat.
    + invert H. exists []. split; [by rewrite app_nil_r | constructor].
    + split_calls H.
      * destruct (IH _ H) as (new & -> & Hnew).
        exists (i :: new). split; [by rewrite <- app_assoc|].
        constructor; [exists card; split; [left|done]|].
        eapply Forall_impl; [exact Hnew|]. intros it (c & Hc & Hb).
        exists c. split; [by right|done].
      * destruct (IH _ H) as (new & -> & Hnew).
        exists new. split; [done|].
        eapply Forall_impl; [exact Hnew|]. intros it (c & Hc & Hb).
        exists c. split; [by right|done].
Qed.

(** The card loop never takes the list beyond eight items. *)
Lemma scan_cards_length cards items items' :
  scan_cards body cards items = Ok items' →
  (length items' ≤ length items `max` 8)%nat.
Proof.
  revert items. induction cards as [|card cards IH]; intros items H; simpl in H.
  - invert H. lia.
  - destruct (8 <=? length items)%nat eqn:Hlen.
    + invert H. lia.
    + apply Nat.leb_gt in Hlen. split_calls H; apply IH in H;
        rewrite ?length_app in H; simpl in H; lia.
Qed.

End ScanFacts.

(** ** What a successful extraction went through *)

Section Inversions.

Variable L : libs.
Variable C : config.

Lemma parse_citycenter_ok log r log' :
  parse_citycenter_laptops L C log = (Ok r, log') →
  ∃ rsp doc items,
    http_get L log (Request (CITY_URL C) None) = Ok rsp
    ∧ pq L (resp_text rsp) = Ok doc
    ∧ scan_cards (citycenter_card L C) (doc citycenter_selector) [] = Ok items
    ∧ items ≠ []
    ∧ r = SiteResult (CITY_URL C) (length items) (take 8 items) None
    ∧ log' = log ++ [Request (CITY_URL C) None].
Proof.
  intros H. unfold parse_citycenter_laptops in H. split_calls H.
  invert H. eauto 10.
Qed.

Lemma timecenter_json_items_ok log items log' :
  timecenter_json_items L C log = (Ok items, log') →
  ∃ ps, for_each (timecenter_product L C) ps [] = Ok items
        ∧ (length ps ≤ 8)%nat
        ∧ log' = log ++ [prod_json_request C].
Proof.
  intros H. unfold timecenter_json_items in H.
  autounfold with monad_ops in H. simpl in H.
  destruct (http_get L log _) as [rsp|e]; [|done].
  destruct (resp_json rsp) as [data|e]; [|done].
  destruct (py_get_default data _ _) as [products|e]; [|done].
  destruct (py_slice8 products) as [ps|e] eqn:Hps; [|done].
  invert H. exists ps. split; [done|]. split; [|done].
  unfold py_slice8 in Hps. destruct products; invert Hps;
    rewrite ?length_map, length_take; lia.
Qed.

Lemma timecenter_json_items_log log res log' :
  timecenter_json_items L C log = (res, log') → log' = log ++ [prod_json_request C].
Proof.
  intros H. unfold timecenter_json_items in H.
  autounfold with monad_ops in H. simpl in H.
  repeat match type of H with
         | context [match ?x with _ => _ end] => destruct x
         end; by invert H.
Qed.

Lemma timecenter_html_tier_ok log r log' :
  timecenter_html_tier L C log = (Ok r, log') →
  ∃ rsp doc items,
    http_get L log (Request (TIME_URL C) None) = Ok rsp
    ∧ pq L (resp_text rsp) = Ok doc
    ∧ scan_cards (timecenter_card L C) (doc timecenter_selector) [] = Ok items
    ∧ items ≠ []
    ∧ r = SiteResult (TIME_URL C) (length items) (take 8 items) None
    ∧ log' = log ++ [Request (TIME_URL C) None].
Proof.
  intros H. unfold timecenter_html_tier in H. split_calls H.
  invert H. eauto 10.
Qed.

(** Time Center succeeds through its JSON tier or, when that tier raised or
    found nothing, through its HTML tier. *)
Lemma parse_timecenter_ok log r log' :
  parse_timecenter_shopify L C log = (Ok r, log') →
  (∃ items, timecenter_json_items L C log = (Ok items, log')
            ∧ items ≠ []
            ∧ r = SiteResult (prod_json_url C) (length items) items None)
  ∨ (∃ res log1, timecenter_json_items L C log = (res, log1)
                 ∧ (res = Ok [] ∨ ∃ e, res = Raise e)
                 ∧ timecenter_html_tier L C log1 = (Ok r, log')).
Proof.
  intros H. unfold parse_timecenter_shopify, timecenter_json_tier in H.
  autounfold with monad_ops in H.
  destruct (timecenter_json_items L C log) as [[items|e] log1] eqn:Hj.
  - destruct items as [|it items]; simpl in H.
    + right. exists (Ok []), log1. eauto.
    + left. invert H. eauto.
  - right. exists (Raise e), log1. eauto.
Qed.

Lemma readers_page_ok url log items log' :
  readers_page L url log = (Ok items, log') →
  ∃ rsp doc,
    http_get L log (Request url None) = Ok rsp
    ∧ pq L (resp_text rsp) = Ok doc
    ∧ _readers_extract_from_doc L doc url = Ok items
    ∧ log' = log ++ [Request url None].
Proof.
  intros H. unfold readers_page in H. split_calls H. invert H. eauto 10.
Qed.

Lemma readers_page_log url log res log' :
  readers_page L url log = (res, log') → log' = log ++ [Request url None].
Proof.
  intros H. unfold readers_page in H.
  autounfold with monad_ops in H. simpl in H.
  repeat match type of H with
         | context [match ?x with _ => _ end] => destruct x
         end; by invert H.
Qed.

(** [parse_readers] in terms of its two page extractions. *)
Lemma parse_readers_pages log :
  parse_readers L C log =
  match readers_page L (READERS_URL C) log with
  | (Raise e, log1) => (Raise e, log1)
  | (Ok (it :: its), log1) =>
      (Ok (SiteResult (READERS_URL C) (length (it :: its)) (take 8 (it :: its)) None), log1)
  | (Ok [], log1) =>
      match quote_plus L (READERS_QUERY C) with
      | Raise e => (Raise e, log1)
      | Ok q =>
          match readers_page L (readers_search_prefix ++ q) log1 with
          | (Raise e, log2) => (Raise e, log2)
          | (Ok [], log2) => (Raise readers_no_items, log2)
          | (Ok (it :: its), log2) =>
              (Ok (SiteResult (readers_search_prefix ++ q) (length (it :: its))
                     (take 8 (it :: its)) (Some (readers_note C))), log2)
          end
      end
  end.
Proof.
  unfold parse_readers, readers_page. autounfold with monad_ops. simpl.
  destruct (http_get L log _) as [rsp|e]; [|done].
  destruct (pq L (resp_text rsp)) as [doc|e]; [|done].
  destruct (_readers_extract_from_doc L doc (READERS_URL C)) as [[|it its]|e]; [|done..].
  destruct (quote_plus L (READERS_QUERY C)) as [q|e]; [|done].
  simpl. destruct (http_get L _ _) as [rsp2|e]; [|done].
  destruct (pq L (resp_text rsp2)) as [doc2|e]; [|done].
  by destruct (_readers_extract_from_doc L doc2 _) as [[|it its]|e].
Qed.

Lemma parse_readers_ok log r log' :
  parse_readers L C log = (Ok r, log') →
  (∃ items, readers_page L (READERS_URL C) log = (Ok items, log')
            ∧ items ≠ []
            ∧ r = SiteResult (READERS_URL C) (length items) (take 8 items) None)
  ∨ (∃ log1 q items,
        readers_page L (READERS_URL C) log = (Ok [], log1)
        ∧ quote_plus L (READERS_QUERY C) = Ok q
        ∧ readers_page L (readers_search_prefix ++ q) log1 = (Ok items, log')
        ∧ items ≠ []
        ∧ r = SiteResult (readers_search_prefix ++ q) (length items) (take 8 items)
                (Some (readers_note C))).
Proof.
  rewrite parse_readers_pages. intros H.
  destruct (readers_page L (READERS_URL C) log) as [[[|it its]|e] log1] eqn:H1;
    [|invert H; left; eauto|done].
  destruct (quote_plus L (READERS_QUERY C)) as [q|e] eqn:Hq; [|done].
  destruct (readers_page L (readers_search_prefix ++ q) log1) as [[[|it its]|e] log2] eqn:H2;
    [done| |done].
  invert H. right. exists log1, q, (it :: its). eauto 10.
Qed.

(** The JSON tier of Time Center adds at most one item per product. *)
Lemma timecenter_products_length ps items items' :
  for_each (timecenter_product L C) ps items = Ok items' →
  (length items' ≤ length items + length ps)%nat.
Proof.
  revert items. induction ps as [|p ps IH]; intros items H; simpl in H.
  - invert H. lia.
  - autounfold with monad_ops in H.
    destruct (timecenter_product L C p items) as [items1|e] eqn:Hp; [|done].
    apply IH in H. simpl.
    assert (length items1 ≤ S (length items))%nat; [|lia].
    unfold timecenter_product in Hp. split_calls Hp; invert Hp;
      rewrite ?length_app; simpl; lia.
Qed.

End Inversions.

(** ** Counts and previews *)

Import Fixtures.

(** On the page that lists nine products in JSON-LD, Readers reports nine
    items and previews eight. *)
Example readers_counts_all_items :
  ∃ r log', parse_readers nine_products_libs default_config [] = (Ok r, log')
            ∧ items_count r = 9%nat ∧ length (items_preview r) = 8%nat.
Proof. vm_compute. eexists _, _. split; [reflexivity|]. split; reflexivity. Qed.

(** C1, as stated, fails: it is not the case that every result of the three
    extractors has [items_count] equal to the length of [items_preview] (and
    that length at most 8).  The Readers result on a page whose JSON-LD block
    lists nine products has [items_count = 9] and a preview of 8. *)
Lemma items_count_is_preview_length_fails :
  ¬ (∀ (L : libs) (C : config) (s : site) log r log',
       extractor L C s log = (Ok r, log') →
       items_count r = length (items_preview r)
       ∧ (length (items_preview r) ≤ 8)%nat).
Proof.
  intros H. destruct readers_counts_all_items as (r & log' & Hr & Hc & Hl).
  destruct (H nine_products_libs default_config Readers [] r log' Hr) as [Heq _].
  rewrite Hc, Hl in Heq. discriminate Heq.
Qed.

(** C1, amended: for every result of the three extractors, [items_preview]
    has at most 8 items and as many as [min items_count 8]; [items_count]
    equals the length of [items_preview] for City Center and Time Center
    (for Readers it counts every collected item, so it is equal exactly when
    at most 8 were collected). *)
Theorem preview_is_first_eight (L : libs) (C : config) (s : site) log r log' :
  extractor L C s log = (Ok r, log') →
  (length (items_preview r) ≤ 8)%nat
  ∧ length (items_preview r) = items_count r `min` 8
  ∧ (s ≠ Readers → items_count r = length (items_preview r)).
Proof.
  assert (Hhtml : ∀ body cards (items : list item),
    scan_cards body cards [] = Ok items →
    (length (take 8 items) ≤ 8)%nat
    ∧ length (take 8 items) = length items `min` 8
    ∧ length items = length (take 8 items)).
  { intros body cards items Hs. apply scan_cards_length in Hs. simpl in Hs.
    rewrite length_take. lia. }
  destruct s; simpl; intros H.
  - apply parse_citycenter_ok in H as (rsp & doc & items & _ & _ & Hs & _ & -> & _).
    simpl. destruct (Hhtml _ _ _ Hs) as (? & ? & ?). done.
  - apply parse_timecenter_ok in H as [(items & Hj & _ & ->)|(res & log1 & _ & _ & Hh)].
    + apply timecenter_json_items_ok in Hj as (ps & Hps & Hlen & _).
      apply timecenter_products_length in Hps. simpl in *. lia.
    + apply timecenter_html_tier_ok in Hh as (rsp & doc & items & _ & _ & Hs & _ & -> & _).
      simpl. destruct (Hhtml _ _ _ Hs) as (? & ? & ?). done.
  - assert (Hr : ∃ src (items : list item) nt,
               r = SiteResult src (length items) (take 8 items) nt).
    { apply parse_readers_ok in H as [(items & _ & _ & ->)|(? & ? & items & _ & _ & _ & _ & ->)];
        eauto. }
    destruct Hr as (src & items & nt & ->). simpl. rewrite length_take.
    split; [lia|]. split; [lia|done].
Qed.

Lemma preview_is_first_eight_witness :
  ∃ r log',
    extractor three_cards_libs default_config CityCenter [] = (Ok r, log')
    ∧ (length (items_preview r) ≤ 8)%nat
    ∧ length (items_preview r) = items_count r `min` 8
    ∧ (CityCenter ≠ Readers → items_count r = length (items_preview r)).
Proof.
  assert (H : ∃ r log',
    extractor three_cards_libs default_config CityCenter [] = (Ok r, log')).
  { vm_compute. eexists _, _. reflexivity. }
  destruct H as (r & log' & Hr). exists r, log'. split; [exact Hr|].
  exact (preview_is_first_eight three_cards_libs default_config CityCenter [] r log' Hr).
Defined.

(** ** City Center: the extraction error *)

(** C7: once the City Center page is fetched and parsed and the loop over its
    cards has run to its end with [items], the extractor raises if and only
    if [items] is empty, what it raises then is the extraction error, and
    with at least one item it returns the success record. *)
Theorem citycenter_raises_iff_no_items (L : libs) (C : config) log rsp doc items :
  http_get L log (Request (CITY_URL C) None) = Ok rsp →
  pq L (resp_text rsp) = Ok doc →
  scan_cards (citycenter_card L C) (doc citycenter_selector) [] = Ok items →
  ((∃ e log', parse_citycenter_laptops L C log = (Raise e, log')) ↔ items = [])
  ∧ (items = [] →
     parse_citycenter_laptops L C log
     = (Raise citycenter_no_items, log ++ [Request (CITY_URL C) None]))
  ∧ (items ≠ [] →
     parse_citycenter_laptops L C log
     = (Ok (SiteResult (CITY_URL C) (length items) (take 8 items) None),
        log ++ [Request (CITY_URL C) None])).
Proof.
  intros Hget Hpq Hscan.
  assert (Hrun : parse_citycenter_laptops L C log
    = match items with
      | [] => (Raise citycenter_no_items, log ++ [Request (CITY_URL C) None])
      | _ => (Ok (SiteResult (CITY_URL C) (length items) (take 8 items) None),
              log ++ [Request (CITY_URL C) None])
      end).
  { unfold parse_citycenter_laptops. autounfold with monad_ops. simpl.
    rewrite Hget, Hpq, Hscan. by destruct items. }
  rewrite Hrun. destruct items as [|it items].
  - split; [|split]; [split|done|done]; [done|]. intros _. eauto.
  - split; [|split]; [split|done|done]; [|done]. by intros (e & log' & ?).
Qed.

Lemma citycenter_raises_iff_no_items_witness :
  ∃ items,
    length items = 3
    ∧ ((∃ e log', parse_citycenter_laptops three_cards_libs default_config []
                  = (Raise e, log')) ↔ items = [])
    ∧ (items = [] →
       parse_citycenter_laptops three_cards_libs default_config []
       = (Raise citycenter_no_items, [] ++ [Request (CITY_URL default_config) None]))
    ∧ (items ≠ [] →
       parse_citycenter_laptops three_cards_libs default_config []
       = (Ok (SiteResult (CITY_URL default_config) (length items) (take 8 items) None),
          [] ++ [Request (CITY_URL default_config) None])).
Proof.
  pose (rsp := Response (CITY_URL default_config) (page_json three_cards_page)).
  pose (doc := page_doc three_cards_page).
  assert (Hget : http_get three_cards_libs [] (Request (CITY_URL default_config) None)
                 = Ok rsp) by (vm_compute; reflexivity).
  assert (Hpq : pq three_cards_libs (resp_text rsp) = Ok doc) by (vm_compute; reflexivity).
  assert (Hscan : ∃ items,
    scan_cards (citycenter_card three_cards_libs default_config)
      (doc citycenter_selector) [] = Ok items ∧ length items = 3).
  { vm_compute. eexists. split; reflexivity. }
  destruct Hscan as (items & Hscan & Hlen). exists items. split; [exact Hlen|].
  exact (citycenter_raises_iff_no_items three_cards_libs default_config
           [] rsp doc items Hget Hpq Hscan).
Defined.

(** ** Time Center: the JSON tier returns first *)

(** C3: when the JSON tier of Time Center ends with at least one item, the
    extractor returns that tier's record, and the only request of the whole
    call is the one to the products endpoint: the HTML tier, which starts
    with a fetch of the listing page, is not run. *)
Theorem timecenter_json_tier_returns_first (L : libs) (C : config) log items log' :
  timecenter_json_items L C log = (Ok items, log') →
  items ≠ [] →
  parse_timecenter_shopify L C log
  = (Ok (SiteResult (prod_json_url C) (length items) items None), log')
  ∧ log' = log ++ [prod_json_request C].
Proof.
  intros Hj Hne. split; [|by eapply timecenter_json_items_log].
  unfold parse_timecenter_shopify, timecenter_json_tier.
  autounfold with monad_ops. rewrite Hj. by destruct items.
Qed.

Lemma timecenter_json_tier_returns_first_witness :
  ∃ items log',
    timecenter_json_items five_products_libs default_config [] = (Ok items, log')
    ∧ length items = 5
    ∧ parse_timecenter_shopify five_products_libs default_config []
      = (Ok (SiteResult (prod_json_url default_config) (length items) items None), log')
    ∧ log' = [] ++ [prod_json_request default_config].
Proof.
  assert (H : ∃ items log',
    timecenter_json_items five_products_libs default_config [] = (Ok items, log')
    ∧ length items = 5 ∧ items ≠ []).
  { vm_compute. eexists _, _. split; [reflexivity|]. split; [reflexivity|discriminate]. }
  destruct H as (items & log' & Hj & Hlen & Hne). exists items, log'.
  split; [exact Hj|]. split; [exact Hlen|].
  exact (timecenter_json_tier_returns_first five_products_libs default_config
           [] items log' Hj Hne).
Defined.

(** The other way round: when the JSON tier raises or ends with no item, the
    extractor goes on with the HTML tier, on the log the JSON tier left. *)
Lemma timecenter_falls_back_to_html (L : libs) (C : config) log res log1 :
  timecenter_json_items L C log = (res, log1) →
  res = Ok [] ∨ (∃ e, res = Raise e) →
  parse_timecenter_shopify L C log = timecenter_html_tier L C log1.
Proof.
  intros Hj Hres. unfold parse_timecenter_shopify, timecenter_json_tier.
  autounfold with monad_ops. rewrite Hj.
  by destruct Hres as [->|(e & ->)].
Qed.

(** ** Readers: the search fallback *)



(** The fallback at work: nothing on the home page, one card on the search
    page, two requests, and the note. *)
Example readers_fallback_run :
  parse_readers search_fallback_libs default_config []
  = (Ok (SiteResult search_url 1
           [Item (PStr (lit "A Book")) (PStr []) (PStr (search_url ++ lit "/book"))]
           (Some (lit "Search fallback for 'book'"))),
     [Request (READERS_URL default_config) None; Request search_url None]).
Proof. vm_compute. reflexivity. Qed.

(** ** Readers: JSON-LD items come first *)

(** C10: the list [_readers_extract_from_doc] returns is the list of the
    JSON-LD pass followed by the items the HTML pass made of cards of the
    page; with 8 or more JSON-LD items the HTML pass does not look at any card
    and adds nothing, and when it does add items the total stays within 8. *)
Theorem readers_jsonld_items_come_first (L : libs) (doc : document) (base : str) items :
  _readers_extract_from_doc L doc base = Ok items →
  ∃ ld html,
    readers_jsonld_pass L doc base = Ok ld
    ∧ items = ld ++ html
    ∧ Forall (λ it, ∃ card, card ∈ doc readers_selector
                            ∧ readers_card L base card = Ok (Some it)) html
    ∧ (8 ≤ length ld → html = []
                        ∧ ∀ doc' : document, readers_html_pass L doc' base ld = Ok ld)
    ∧ (html ≠ [] → length ld < 8 ∧ length items ≤ 8).
Proof.
  unfold _readers_extract_from_doc. autounfold with monad_ops.
  destruct (readers_jsonld_pass L doc base) as [ld|e]; [|done].
  unfold readers_html_pass. destruct (length ld <? 8) eqn:Hlt; intros H.
  - apply Nat.ltb_lt in Hlt.
    pose proof (scan_cards_length _ _ _ _ H) as Hlen.
    apply scan_cards_appends in H as (html & -> & Hhtml).
    exists ld, html. split; [done|]. split; [done|]. split; [done|].
    split; [lia|]. intros _. split; [done|lia].
  - apply Nat.ltb_ge in Hlt. invert H. exists items, [].
    split; [done|]. split; [by rewrite app_nil_r|]. split; [constructor|].
    split; [|done]. intros _. split; [done|]. intros doc'.
    destruct (length items <? 8) eqn:Hlt'; [|done].
    apply Nat.ltb_lt in Hlt'. lia.
Qed.

Lemma readers_jsonld_items_come_first_witness :
  ∃ items ld html,
    _readers_extract_from_doc mixed_libs mixed_doc (READERS_URL default_config) = Ok items
    ∧ readers_jsonld_pass mixed_libs mixed_doc (READERS_URL default_config) = Ok ld
    ∧ items = ld ++ html
    ∧ length ld = 1 ∧ length html = 1.
Proof.
  assert (H : ∃ items,
    _readers_extract_from_doc mixed_libs mixed_doc (READERS_URL default_config) = Ok items
    ∧ length items = 2).
  { vm_compute. eexists. split; reflexivity. }
  destruct H as (items & Hitems & Hlen).
  destruct (readers_jsonld_items_come_first mixed_libs mixed_doc
              (READERS_URL default_config) items Hitems)
    as (ld & html & Hld & Happ & _).
  assert (Hone : ∃ ld',
    readers_jsonld_pass mixed_libs mixed_doc (READERS_URL default_config) = Ok ld'
    ∧ length ld' = 1).
  { vm_compute. eexists. split; reflexivity. }
  destruct Hone as (ld' & Hld' & Hlen').
  rewrite Hld in Hld'. injection Hld' as <-.
  exists items, ld, html. split; [exact Hitems|]. split; [exact Hld|].
  split; [exact Happ|]. split; [exact Hlen'|].
  rewrite Happ, length_app, Hlen' in Hlen. lia.
Defined.

(** ** Where the fields of an item come from *)

Section Provenance.

Variable L : libs.
Variable C : config.

Ltac card_made H :=
  let h := fresh "h" in let Hu := fresh "Hu" in let Ht := fresh "Ht" in
  match type of H with
  | context [truthy ?t] => destruct (truthy t) eqn:Ht; [|discriminate H]
  end;
  autounfold with monad_ops in H;
  match type of H with
  | context [urljoin L ?b ?l] => destruct (urljoin L b l) as [h|] eqn:Hu; [|discriminate H]
  end;
  invert H; eexists _, _; split; [exact Ht|]; split; [reflexivity|exact Hu].

Lemma citycenter_card_made card it :
  citycenter_card L C card = Ok (Some it) → made_on_page L (CITY_URL C) it.
Proof. intros H. unfold citycenter_card in H. card_made H. Qed.

Lemma timecenter_card_made card it :
  timecenter_card L C card = Ok (Some it) → made_on_page L (TIME_URL C) it.
Proof. intros H. unfold timecenter_card in H. card_made H. Qed.

Lemma readers_card_made base card it :
  readers_card L base card = Ok (Some it) → made_on_page L base it.
Proof. intros H. unfold readers_card in H. card_made H. Qed.

Lemma scan_cards_made (P : item → Prop) body cards items items' :
  (∀ card it, body card = Ok (Some it) → P it) →
  Forall P items → scan_cards body cards items = Ok items' → Forall P items'.
Proof.
  intros Hbody Hitems H. apply scan_cards_appends in H as (new & -> & Hnew).
  apply Forall_app. split; [done|].
  eapply Forall_impl; [exact Hnew|]. intros it (card & _ & Hc). eauto.
Qed.

Lemma push_product_made base obj items items' :
  Forall (made_on_page L base) items →
  push_product L base obj items = Ok items' → Forall (made_on_page L base) items'.
Proof.
  intros Hitems H. unfold push_product in H.
  destruct obj; try (by invert H).
  autounfold with monad_ops in H.
  match type of H with
  | context [match ?p with Ok _ => _ | Raise _ => _ end] =>
      destruct p as [pr|]; [|discriminate H]
  end.
  destruct (truthy (dict_get d (lit "name"))) eqn:Ht; [|by invert H].
  destruct (urljoin L base _) as [h|] eqn:Hu; [|discriminate H].
  invert H. apply Forall_app. split; [done|]. constructor; [|constructor].
  eexists _, _. split; [exact Ht|]. split; [reflexivity|exact Hu].
Qed.

Lemma jsonld_node_made base node items items' :
  Forall (made_on_page L base) items →
  jsonld_node L base node items = Ok items' → Forall (made_on_page L base) items'.
Proof.
  intros Hitems H. unfold jsonld_node in H.
  destruct node; try (by invert H).
  destruct (eq_str _ (lit "Product")); [by eapply push_product_made|].
  destruct (eq_str _ (lit "ItemList")); [|by invert H].
  autounfold with monad_ops in H.
  destruct (py_iter _) as [lis|]; [|discriminate H].
  eapply (for_each_invariant (Forall (made_on_page L base))); [|exact Hitems|exact H].
  intros li s1 s2 Hs1 Hli. unfold push_list_element in Hli.
  destruct li; try (by invert Hli). by eapply push_product_made.
Qed.

Lemma readers_extract_made doc base items :
  _readers_extract_from_doc L doc base = Ok items → Forall (made_on_page L base) items.
Proof.
  unfold _readers_extract_from_doc. autounfold with monad_ops.
  destruct (readers_jsonld_pass L doc base) as [ld|] eqn:Hld; [|done].
  assert (Forall (made_on_page L base) ld) as Hmade.
  { unfold readers_jsonld_pass in Hld.
    eapply (for_each_invariant (Forall (made_on_page L base))); [|constructor|exact Hld].
    intros script s1 s2 Hs1 Hs. unfold jsonld_script in Hs.
    destruct (json_loads L _) as [data|]; [|by invert Hs].
    destruct data; try (by invert Hs); [|by eapply jsonld_node_made].
    eapply (for_each_invariant (Forall (made_on_page L base))); [|exact Hs1|exact Hs].
    intros. by eapply jsonld_node_made. }
  unfold readers_html_pass. destruct (length ld <? 8); [|intros H; by invert H].
  apply scan_cards_made; [|done]. apply readers_card_made.
Qed.

Lemma timecenter_product_made p items items' :
  Forall (made_of_product L C) items →
  timecenter_product L C p items = Ok items' → Forall (made_of_product L C) items'.
Proof.
  intros Hitems H. unfold timecenter_product in H.
  autounfold with monad_ops in H.
  destruct (py_get p (lit "title")) as [t|]; [|discriminate H].
  destruct (py_get p (lit "handle")) as [handle|]; [|discriminate H].
  destruct (py_get p (lit "variants")) as [v|]; [|discriminate H].
  match type of H with
  | context [match ?p with Ok _ => _ | Raise _ => _ end] =>
      destruct p as [pr|]; [|discriminate H]
  end.
  destruct (truthy t) eqn:Ht; [|by invert H].
  invert H. apply Forall_app. split; [done|]. constructor; [|constructor].
  exists t. split; [done|]. split; [done|]. simpl.
  destruct (truthy handle) eqn:Hh; eauto.
Qed.

End Provenance.

(** ** Titles and links of the items *)

(** A page in JSON-LD that names its product by a number gives an item whose
    title is that number. *)
Example numeric_title_is_kept :
  ∃ r log', parse_readers numeric_name_libs default_config [] = (Ok r, log')
            ∧ title <$> items_preview r = [PInt 1984].
Proof. vm_compute. eexists _, _. split; reflexivity. Qed.

(** A card whose only title is the blank attribute [title=" "] passes the
    test on the raw title and gives an item whose cleaned title is empty. *)
Example blank_title_is_kept :
  ∃ r log', parse_citycenter_laptops blank_title_libs default_config [] = (Ok r, log')
            ∧ title <$> items_preview r = [PStr []].
Proof. vm_compute. eexists _, _. split; reflexivity. Qed.


Section SchemeFacts.

Lemma scheme_rest_app u v : scheme_rest u = true → scheme_rest (u ++ v) = true.
Proof.
  induction u as [|c u IH]; simpl; [done|].
  destruct (c =? 58)%N; [done|].
  intros [Hc Hu]%andb_prop. by rewrite Hc, IH.
Qed.

Lemma has_scheme_app u v : has_scheme u = true → has_scheme (u ++ v) = true.
Proof.
  destruct u as [|c u]; simpl; [done|].
  intros [Hc Hu]%andb_prop. by rewrite Hc, scheme_rest_app.
Qed.

Lemma has_scheme_nonempty u : has_scheme u = true → u ≠ [].
Proof. by destruct u. Qed.


(** The strict library of the fixtures treats schemes as the two premises
    on the libraries say. *)
Lemma strict_fetches_absolute web loads : fetches_absolute (strict_libs web loads).
Proof.
  intros log rq rsp H. cbn [strict_libs http_get] in H.
  by destruct (has_scheme (req_url rq)).
Qed.

Lemma strict_joins_absolute web loads : joins_absolute (strict_libs web loads).
Proof.
  intros log rq rsp Hget u h _ H. apply strict_fetches_absolute in Hget.
  cbn [strict_libs urljoin_rel] in H. injection H as <-.
  destruct (has_scheme u) eqn:Hu; [done|]. by apply has_scheme_app.
Qed.

End SchemeFacts.


Section TitleAndHref.

Variable L : libs.
Variable C : config.

Lemma str_if_truthy_PStr s : str_if_truthy (PStr s).
Proof. intros _. by eexists. Qed.

Lemma str_if_truthy_attr a : str_if_truthy (of_attr a).
Proof. destruct a; intros H; [by eexists|discriminate H]. Qed.

Lemma str_if_truthy_or a b :
  str_if_truthy a → str_if_truthy b → str_if_truthy (py_or a b).
Proof. intros Ha Hb. unfold py_or. by destruct (truthy a) eqn:Hta. Qed.


Ltac card_title H :=
  let Ht := fresh "Ht" in
  match type of H with
  | context [truthy ?t] =>
      destruct (truthy t) eqn:Ht; [|discriminate H];
      let x := fresh "x" in let Hx := fresh "Hx" in
      assert (is_str t) as [x Hx]
        by (revert Ht;
            repeat apply str_if_truthy_or;
            (apply str_if_truthy_PStr || apply str_if_truthy_attr));
      rewrite Hx in H
  end;
  autounfold with monad_ops in H;
  match type of H with
  | context [urljoin L ?b ?l] => destruct (urljoin L b l); [|discriminate H]
  end;
  injection H as <-; simpl; by eexists.

Lemma citycenter_card_title card it :
  citycenter_card L C card = Ok (Some it) → is_str (title it).
Proof. intros H. unfold citycenter_card in H. card_title H. Qed.

Lemma timecenter_card_title card it :
  timecenter_card L C card = Ok (Some it) → is_str (title it).
Proof. intros H. unfold timecenter_card in H. card_title H. Qed.

(** The items of a successful extraction were all made on the page named by
    [source], which was fetched, and then those of City Center and of Time
    Center come from cards and have a string for their title; or they were
    all made of products of the Time Center JSON endpoint. *)
Lemma extractor_items_origin s log r log' :
  extractor L C s log = (Ok r, log') →
  ((∃ log0 rsp, http_get L log0 (Request (source r) None) = Ok rsp)
   ∧ Forall (made_on_page L (source r)) (items_preview r)
   ∧ (s ≠ Readers → Forall (λ it, is_str (title it)) (items_preview r)))
  ∨ (s = TimeCenter ∧ source r = prod_json_url C
     ∧ Forall (made_of_product L C) (items_preview r)).
Proof.
  destruct s; simpl; intros H.
  - apply parse_citycenter_ok in H as (rsp & doc & items & Hget & _ & Hs & _ & -> & _).
    left. simpl. split; [eauto|]. split; [|intros _]; apply Forall_take.
    + eapply scan_cards_made; [apply citycenter_card_made|constructor|exact Hs].
    + eapply scan_cards_made; [apply citycenter_card_title|constructor|exact Hs].
  - apply parse_timecenter_ok in H as [(items & Hj & _ & ->)|(res & log1 & _ & _ & Hh)].
    + apply timecenter_json_items_ok in Hj as (ps & Hps & _ & _). right. simpl.
      split; [done|]. split; [done|].
      eapply (for_each_invariant (Forall (made_of_product L C))); [|constructor|exact Hps].
      intros. by eapply timecenter_product_made.
    + apply timecenter_html_tier_ok in Hh as (rsp & doc & items & Hget & _ & Hs & _ & -> & _).
      left. simpl. split; [eauto|]. split; [|intros _]; apply Forall_take.
      * eapply scan_cards_made; [apply timecenter_card_made|constructor|exact Hs].
      * eapply scan_cards_made; [apply timecenter_card_title|constructor|exact Hs].
  - left.
    apply parse_readers_ok in H as [(items & Hp & _ & ->)|(? & q & items & _ & Hq & Hp & _ & ->)];
      apply readers_page_ok in Hp as (rsp & doc & Hget & _ & He & _); simpl.
    + split; [eauto|]. split; [|done]. apply Forall_take. by eapply readers_extract_made.
    + split; [eauto|]. split; [|done]. apply Forall_take. by eapply readers_extract_made.
Qed.


(** [urljoin] on a base that is not empty gives a non-empty URL, if the
    library does so for the links that are not empty. *)
Lemma urljoin_nonempty base link h :
  base ≠ [] → resolves_nonempty L base → urljoin L base link = Ok h →
  ∃ h', h = PStr h' ∧ h' ≠ [].
Proof.
  intros Hb Hres H. unfold urljoin in H. destruct base as [|c b]; [done|].
  destruct (truthy link) eqn:Hl; simpl in H; [|invert H; eauto].
  destruct link; try discriminate H.
  autounfold with monad_ops in H.
  destruct (urljoin_rel L (c :: b) s) as [h'|] eqn:Hrel; [|discriminate H].
  invert H. exists h'. split; [done|].
  eapply Hres; [|exact Hrel]. by destruct s.
Qed.

End TitleAndHref.



(** ** Links that are empty *)

(** With [SCRAPE_TIME_URL] set to the empty string, the JSON tier still asks
    the default endpoint, and a product without a handle gets the empty
    string for its href. *)
Example blank_time_url_item :
  parse_timecenter_shopify handleless_libs blank_config []
  = (Ok {| source := default_endpoint; items_count := 1;
           items_preview := [ {| title := PInt 1984; price := PStr [];
                                 href := PStr [] |} ];
           note := None |},
     [Request default_endpoint (Some [(lit "limit", PInt 12)])]).
Proof. vm_compute. reflexivity. Qed.

(** The strict library of the fixtures fetches no empty URL and resolves
    links on a fetched base to non-empty URLs. *)
Lemma strict_fetches_nonempty web loads : fetches_nonempty (strict_libs web loads).
Proof.
  intros log rq rsp H. apply has_scheme_nonempty.
  by eapply strict_fetches_absolute.
Qed.

Lemma strict_joins_nonempty web loads : joins_nonempty (strict_libs web loads).
Proof.
  intros log rq rsp H u h Hu Hj. apply has_scheme_nonempty.
  by eapply strict_joins_absolute.
Qed.

(** C9, as stated, fails: the href of an item can be the empty string.  The
    Time Center JSON tier gives a product without a handle the configured
    [TIME_URL], and it runs on the default endpoint also when that setting
    is empty. *)
Lemma href_nonempty_fails :
  ¬ (∀ (L : libs) (C : config) (s : site) log r log' it,
       fetches_nonempty L → joins_nonempty L →
       extractor L C s log = (Ok r, log') → it ∈ items_preview r →
       ∃ h, href it = PStr h ∧ h ≠ []).
Proof.
  intros H.
  destruct (H handleless_libs blank_config TimeCenter [] _ _
              {| title := PInt 1984; price := PStr []; href := PStr [] |}
              (strict_fetches_nonempty _ _) (strict_joins_nonempty _ _)
              blank_time_url_item)
    as (h & Hh & Hne).
  - simpl. left.
  - injection Hh as <-. done.
Qed.

(** C9, amended.  Provided [requests] does not fetch the empty URL and
    [urljoin], on a base that was fetched, resolves a non-empty link to a
    non-empty URL, the href of every item of a successful extraction is a
    string, and it is empty only in a Time Center result whose source is the
    products endpoint (the JSON tier) when the configured [TIME_URL] is
    empty, the href then being that setting. *)
Theorem href_empty_only_for_blank_time_url (L : libs) (C : config) (s : site)
    log r log' :
  fetches_nonempty L → joins_nonempty L →
  extractor L C s log = (Ok r, log') →
  Forall (λ it, ∃ h, href it = PStr h
                     ∧ (h = [] → s = TimeCenter ∧ source r = prod_json_url C
                                 ∧ TIME_URL C = []))
    (items_preview r).
Proof.
  intros HF HJ H.
  apply extractor_items_origin in H
    as [((log0 & rsp & Hget) & Hmade & _)|(-> & Hsrc & Hitems)].
  - pose proof (HF _ _ _ Hget) as Hne. apply HJ in Hget. simpl in Hne, Hget.
    eapply Forall_impl; [exact Hmade|]. simpl.
    intros it (raw & link & _ & _ & Hj).
    destruct (urljoin_nonempty L _ _ _ Hne Hget Hj) as (h & -> & Hh).
    exists h. split; [done|]. intros ->. done.
  - eapply Forall_impl; [exact Hitems|]. simpl.
    intros it (raw & _ & _ & [->|(handle & _ & ->)]).
    + eexists. split; [done|]. intros Hempty. done.
    + eexists. split; [done|]. intros Hempty. discriminate Hempty.
Qed.

Lemma href_empty_only_for_blank_time_url_witness :
  ∃ r log',
    extractor strict_three_cards_libs default_config CityCenter [] = (Ok r, log')
    ∧ length (items_preview r) = 3
    ∧ Forall (λ it, ∃ h, href it = PStr h
                         ∧ (h = [] → CityCenter = TimeCenter
                                     ∧ source r = prod_json_url default_config
                                     ∧ TIME_URL default_config = []))
        (items_preview r).
Proof.
  assert (H : ∃ r log',
    extractor strict_three_cards_libs default_config CityCenter [] = (Ok r, log')
    ∧ length (items_preview r) = 3).
  { vm_compute. eexists _, _. split; reflexivity. }
  destruct H as (r & log' & Hr & Hlen). exists r, log'.
  split; [exact Hr|]. split; [exact Hlen|].
  exact (href_empty_only_for_blank_time_url strict_three_cards_libs default_config
           CityCenter [] r log'
           (strict_fetches_nonempty _ _) (strict_joins_nonempty _ _) Hr).
Defined.

(** ** The orchestrator *)

Section Orchestrator.

Variable L : libs.
Variable C : config.
Variable O : os_env.

Lemma run_step_add name fn out w res lg :
  (∀ before m, os_print O before m = Ok ()) →
  fn (sent w) = (res, lg) →
  run_step L O name fn out w
  = (Ok (add_site L name res out),
     World lg (prints w ++ site_lines name res) (files w)).
Proof.
  intros prints_ok H. unfold run_step, handle, call, log. rewrite prints_ok. simpl.
  rewrite H. destruct res; simpl; rewrite prints_ok; simpl;
    by rewrite <- app_assoc.
Qed.

(** When no print raises, the loop of [main] runs the three extractors in
    turn, each on the log the one before it left, whatever their outcomes. *)
Lemma run_steps_combined w r1 l1 r2 l2 r3 l3 :
  (∀ before m, os_print O before m = Ok ()) →
  parse_citycenter_laptops L C (sent w) = (r1, l1) →
  parse_timecenter_shopify L C l1 = (r2, l2) →
  parse_readers L C l2 = (r3, l3) →
  run_steps L O (steps L C) ∅ w
  = (Ok (combined L r1 r2 r3), World l3 (prints w ++ run_lines r1 r2 r3) (files w)).
Proof.
  intros Hprint H1 H2 H3. unfold steps, run_lines. simpl run_steps.
  rewrite (run_step_add _ _ _ _ _ _ Hprint H1).
  rewrite (run_step_add _ _ _ (World l1 _ _) _ _ Hprint H2).
  rewrite (run_step_add _ _ _ (World l2 _ _) _ _ Hprint H3).
  simpl sent. simpl prints. simpl files. by rewrite <- !app_assoc.
Qed.

(** [main] after the loop, by cases on what the system answers. *)
Lemma main_runs w r1 l1 r2 l2 r3 l3 :
  (∀ before m, os_print O before m = Ok ()) →
  os_makedirs O OUT_DIR = Ok () →
  parse_citycenter_laptops L C (sent w) = (r1, l1) →
  parse_timecenter_shopify L C l1 = (r2, l2) →
  parse_readers L C l2 = (r3, l3) →
  main L C O w =
  let lines := prints w ++ run_lines r1 r2 r3 in
  match open_w O OUT_JSON with
  | Raise e => (Raise e, World l3 lines (files w))
  | Ok _ =>
      match json_dump O (combined L r1 r2 r3) with
      | DumpFailed e written =>
          (Raise e, World l3 lines (<[OUT_JSON := written]> (files w)))
      | Dumped text =>
          match os_abspath O OUT_JSON with
          | Raise e => (Raise e, World l3 lines (<[OUT_JSON := text]> (files w)))
          | Ok path =>
              (Ok (), World l3 (lines ++ [lit "saved -> " ++ path])
                        (<[OUT_JSON := text]> (files w)))
          end
      end
  end.
Proof.
  intros Hprint Hdir H1 H2 H3. unfold main.
  rewrite Hdir, (run_steps_combined _ _ _ _ _ _ _ Hprint H1 H2 H3).
  unfold write_out. simpl.
  destruct (open_w O OUT_JSON) as [[]|e]; [|done].
  destruct (json_dump O _) as [text|e written]; [|done].
  destruct (os_abspath O OUT_JSON) as [path|e]; [|done].
  unfold log. by rewrite Hprint.
Qed.

(** The keys of the mapping the loop leaves. *)
Lemma combined_keys r1 r2 r3 :
  dom (combined L r1 r2 r3)
  = site_keys (lit "citycenter") r1 ∪ site_keys (lit "timecenter") r2
    ∪ site_keys (lit "readers") r3
  ∧ 3 ≤ size (combined L r1 r2 r3) ≤ 6.
Proof.
  split.
  - destruct r1, r2, r3; vm_compute; reflexivity.
  - destruct r1, r2, r3; vm_compute; lia.
Qed.

(** An exception that leaves the handler, the loop body or the loop is the
    one the last print raised. *)
Lemma handle_raises name e out w e' w' :
  handle L O name e out w = (Raise e', w') →
  ∃ m, prints w' = prints w ++ [m] ∧ os_print O (prints w) m = Raise e'.
Proof.
  unfold handle, log. intros H.
  destruct (os_print O (prints w) _) eqn:Hp; invert H. eauto.
Qed.

Lemma run_step_raises name fn out w e w' :
  run_step L O name fn out w = (Raise e, w') →
  ∃ before m, prints w' = before ++ [m] ∧ os_print O before m = Raise e.
Proof.
  unfold run_step. intros H.
  destruct (log O _ w) as [[[]|e1] w1].
  - destruct (call fn w1) as [[v|e2] w2].
    + destruct (log O _ w2) as [[[]|e3] w3]; [discriminate H|].
      apply handle_raises in H as (m & Hm & Hp). eauto.
    + apply handle_raises in H as (m & Hm & Hp). eauto.
  - apply handle_raises in H as (m & Hm & Hp). eauto.
Qed.

Lemma run_steps_raises l out w e w' :
  run_steps L O l out w = (Raise e, w') →
  ∃ before m, prints w' = before ++ [m] ∧ os_print O before m = Raise e.
Proof.
  revert out w. induction l as [|[name fn] l IH]; intros out w H; simpl in H.
  - discriminate H.
  - destruct (run_step L O name fn out w) as [[out1|e1] w1] eqn:Hs.
    + by eapply IH.
    + invert H. by eapply run_step_raises.
Qed.

End Orchestrator.

(** With standard output a pipe that breaks after the first line, the run
    raises in the handler of its first site: City Center has been asked and
    has raised, and the print of its [ERR] line raises in turn. *)
Example broken_pipe_run :
  main offline_libs default_config broken_pipe_os (World [] [] ∅)
  = (Raise broken_pipe,
     World [Request (CITY_URL default_config) None]
           [lit "running step: citycenter";
            lit "ERR: citycenter: HTTPError: 404 Client Error: Not Found"] ∅).
Proof. vm_compute. reflexivity. Qed.

(** C2, as stated, fails: a run in which all three extractions raise can
    raise, also when the directory can be made and the file opened and
    written.  The print of the handler is not guarded: on a broken pipe it
    raises, and the run ends at the first site that raised. *)
Lemma main_raises_on_broken_pipe :
  ¬ (∀ (L : libs) (C : config) (O : os_env) (w : world),
       os_makedirs O OUT_DIR = Ok () →
       open_w O OUT_JSON = Ok () →
       (∀ out, ∃ text, json_dump O out = Dumped text) →
       (∀ s log, ∃ e log', extractor L C s log = (Raise e, log')) →
       ∃ w', main L C O w = (Ok (), w')).
Proof.
  intros H.
  destruct (H offline_libs default_config broken_pipe_os (World [] [] ∅))
    as (w' & Hmain).
  - reflexivity.
  - reflexivity.
  - intros out. eexists. reflexivity.
  - intros s log. destruct s; vm_compute; eexists _, _; reflexivity.
  - rewrite broken_pipe_run in Hmain. discriminate Hmain.
Qed.

(** C2, amended: if the output directory can be made, no print raises, the
    file can be opened, [json.dump] writes its text and [os.path.abspath]
    answers, then [main] does not raise whatever the three extractors do:
    each is run on the log the one before it left, a site that raises leaves
    its [_error] line and its [_trace], and if all three raise the mapping
    written has exactly the six keys of the three failures. *)
Theorem main_isolates_failures (L : libs) (C : config) (O : os_env) (w : world)
    r1 l1 r2 l2 r3 l3 path :
  os_makedirs O OUT_DIR = Ok () →
  (∀ before m, os_print O before m = Ok ()) →
  open_w O OUT_JSON = Ok () →
  (∀ out, ∃ text, json_dump O out = Dumped text) →
  os_abspath O OUT_JSON = Ok path →
  parse_citycenter_laptops L C (sent w) = (r1, l1) →
  parse_timecenter_shopify L C l1 = (r2, l2) →
  parse_readers L C l2 = (r3, l3) →
  ∃ (out : gmap str out_value) text,
    json_dump O out = Dumped text
    ∧ main L C O w
      = (Ok (), World l3 (prints w ++ run_lines r1 r2 r3 ++ [lit "saved -> " ++ path])
                  (<[OUT_JSON := text]> (files w)))
    ∧ (∀ e, r1 = Raise e →
         out !! lit "citycenter_error" = Some (Text (error_line e))
         ∧ out !! lit "citycenter_trace" = Some (Text (format_exc L e)))
    ∧ (∀ e, r2 = Raise e →
         out !! lit "timecenter_error" = Some (Text (error_line e))
         ∧ out !! lit "timecenter_trace" = Some (Text (format_exc L e)))
    ∧ (∀ e, r3 = Raise e →
         out !! lit "readers_error" = Some (Text (error_line e))
         ∧ out !! lit "readers_trace" = Some (Text (format_exc L e)))
    ∧ ((∃ e1 e2 e3, r1 = Raise e1 ∧ r2 = Raise e2 ∧ r3 = Raise e3) →
         dom out = {[ lit "citycenter_error"; lit "citycenter_trace";
                      lit "timecenter_error"; lit "timecenter_trace";
                      lit "readers_error"; lit "readers_trace" ]}).
Proof.
  intros Hdir Hprint Hopen Hdump Hpath H1 H2 H3.
  destruct (Hdump (combined L r1 r2 r3)) as (text & Htext).
  exists (combined L r1 r2 r3), text. split; [exact Htext|]. split.
  { rewrite (main_runs L C O w r1 l1 r2 l2 r3 l3 Hprint Hdir H1 H2 H3).
    rewrite Hopen, Htext, Hpath. simpl. by rewrite <- app_assoc. }
  clear. split; [|split; [|split]].
  - intros e ->. destruct r2, r3; split; vm_compute; reflexivity.
  - intros e ->. destruct r1, r3; split; vm_compute; reflexivity.
  - intros e ->. destruct r1, r2; split; vm_compute; reflexivity.
  - intros (e1 & e2 & e3 & -> & -> & ->). vm_compute. reflexivity.
Qed.

Lemma main_isolates_failures_witness :
  ∃ out text w',
    json_dump fixture_os out = Dumped text
    ∧ main offline_libs default_config fixture_os (World [] [] ∅) = (Ok (), w')
    ∧ length (sent w') = 4
    ∧ length (prints w') = 7
    ∧ files w' = {[ OUT_JSON := text ]}
    ∧ dom out = {[ lit "citycenter_error"; lit "citycenter_trace";
                   lit "timecenter_error"; lit "timecenter_trace";
                   lit "readers_error"; lit "readers_trace" ]}.
Proof.
  pose (w := World [] [] ∅).
  pose (p1 := parse_citycenter_laptops offline_libs default_config (sent w)).
  pose (p2 := parse_timecenter_shopify offline_libs default_config p1.2).
  pose (p3 := parse_readers offline_libs default_config p2.2).
  destruct (main_isolates_failures offline_libs default_config fixture_os w
              p1.1 p1.2 p2.1 p2.2 p3.1 p3.2 (lit "/srv/" ++ OUT_JSON)
              eq_refl (λ _ _, eq_refl) eq_refl (λ out, ex_intro _ _ eq_refl) eq_refl
              (surjective_pairing p1) (surjective_pairing p2) (surjective_pairing p3))
    as (out & text & Htext & Hmain & _ & _ & _ & Hdom).
  eexists out, text, _. split; [exact Htext|]. split; [exact Hmain|].
  split; [vm_compute; reflexivity|]. split; [vm_compute; reflexivity|].
  split; [reflexivity|].
  apply Hdom. vm_compute. eexists _, _, _. split; [reflexivity|]. split; reflexivity.
Defined.

(** With a standard output that is full at the second print, the record of
    City Center is in the mapping when the print of its [OK] line raises,
    the handler adds the error pair next to it, and the run ends normally
    with seven keys in the file. *)
Example flaky_print_run :
  ∃ out w1 w2 text,
    run_steps three_cards_libs flaky_print_os
      (steps three_cards_libs default_config) ∅ (World [] [] ∅) = (Ok out, w1)
    ∧ dom out = {[ lit "citycenter"; lit "citycenter_error"; lit "citycenter_trace";
                   lit "timecenter_error"; lit "timecenter_trace";
                   lit "readers_error"; lit "readers_trace" ]}
    ∧ size out = 7
    ∧ main three_cards_libs default_config flaky_print_os (World [] [] ∅) = (Ok (), w2)
    ∧ json_dump flaky_print_os out = Dumped text
    ∧ files w2 = {[ OUT_JSON := text ]}.
Proof.
  vm_compute. eexists _, _, _, _.
  split; [reflexivity|]. split; [reflexivity|]. split; [reflexivity|].
  split; [reflexivity|]. split; reflexivity.
Qed.

(** When [json.dump] raises, the run raises and the file, already opened for
    writing, holds what had been written. *)
Example dump_failure_run :
  ∃ w',
    main surrogate_libs default_config utf8_os
      (World [] [] {[ OUT_JSON := lit "stale" ]})
    = (Raise surrogates_not_allowed, w')
    ∧ files w' = {[ OUT_JSON := lit "{" ]}.
Proof. vm_compute. eexists. split; reflexivity. Qed.

(** C6, as stated, fails: the mapping of a run can hold three entries for
    one site, and more than 6 keys, in a run that ends normally.  The print
    of the [OK] line is inside the [try] block, after the record has been
    stored: when it raises, the handler adds the error pair of the site to
    the record. *)
Lemma mapping_can_hold_seven_keys :
  ¬ (∀ (L : libs) (C : config) (O : os_env) (w : world) out w1 w2,
       run_steps L O (steps L C) ∅ w = (Ok out, w1) →
       main L C O w = (Ok (), w2) →
       3 ≤ size out ≤ 6).
Proof.
  intros H. destruct flaky_print_run as (out & w1 & w2 & text & Hrun & _ & Hsize & Hmain & _).
  pose proof (H _ _ _ _ _ _ _ Hrun Hmain) as Hle. lia.
Qed.

(** C6, amended: in a run in which the output directory can be made and no
    print raises, the loop leaves a mapping with one entry for each of the
    three sites, the record under the site's name or the [_error] and
    [_trace] pair, and no other key, so it has between 3 and 6 keys.  Then,
    if [open] raises, the run raises and the files are as before; if
    [json.dump] raises, the run raises and the file holds what had been
    written; if [json.dump] writes its text, the file holds that text
    whatever it held before, and the run raises only if [os.path.abspath]
    does.  No other file is touched. *)
Theorem main_one_entry_per_site (L : libs) (C : config) (O : os_env) (w : world)
    r1 l1 r2 l2 r3 l3 :
  os_makedirs O OUT_DIR = Ok () →
  (∀ before m, os_print O before m = Ok ()) →
  parse_citycenter_laptops L C (sent w) = (r1, l1) →
  parse_timecenter_shopify L C l1 = (r2, l2) →
  parse_readers L C l2 = (r3, l3) →
  ∃ (out : gmap str out_value) w1 res w',
    run_steps L O (steps L C) ∅ w = (Ok out, w1)
    ∧ dom out = site_keys (lit "citycenter") r1 ∪ site_keys (lit "timecenter") r2
                ∪ site_keys (lit "readers") r3
    ∧ (∀ v, r1 = Ok v → out !! lit "citycenter" = Some (Site v))
    ∧ (∀ v, r2 = Ok v → out !! lit "timecenter" = Some (Site v))
    ∧ (∀ v, r3 = Ok v → out !! lit "readers" = Some (Site v))
    ∧ 3 ≤ size out ≤ 6
    ∧ main L C O w = (res, w')
    ∧ match open_w O OUT_JSON with
      | Raise e => res = Raise e ∧ files w' = files w
      | Ok _ =>
          match json_dump O out with
          | DumpFailed e written =>
              res = Raise e ∧ files w' = <[OUT_JSON := written]> (files w)
          | Dumped text =>
              files w' = <[OUT_JSON := text]> (files w)
              ∧ res = match os_abspath O OUT_JSON with
                      | Ok _ => Ok ()
                      | Raise e => Raise e
                      end
          end
      end.
Proof.
  intros Hdir Hprint H1 H2 H3.
  exists (combined L r1 r2 r3). eexists _, _, _.
  split; [by apply (run_steps_combined L C O w r1 l1 r2 l2 r3 l3)|].
  split; [apply combined_keys|].
  split; [intros v ->; destruct r2, r3; vm_compute; reflexivity|].
  split; [intros v ->; destruct r1, r3; vm_compute; reflexivity|].
  split; [intros v ->; destruct r1, r2; vm_compute; reflexivity|].
  split; [apply combined_keys|].
  split; [apply surjective_pairing|].
  rewrite (main_runs L C O w r1 l1 r2 l2 r3 l3 Hprint Hdir H1 H2 H3). simpl.
  destruct (open_w O OUT_JSON) as [[]|e]; [|done].
  destruct (json_dump O _) as [text|e written]; [|done].
  by destruct (os_abspath O OUT_JSON) as [path|e].
Qed.

Lemma main_one_entry_per_site_witness :
  ∃ (out : gmap str out_value) text w',
    main three_cards_libs default_config fixture_os
      (World [] [] {[ OUT_JSON := lit "stale" ]}) = (Ok (), w')
    ∧ json_dump fixture_os out = Dumped text
    ∧ files w' = {[ OUT_JSON := text ]}
    ∧ dom out = {[ lit "citycenter"; lit "timecenter_error"; lit "timecenter_trace";
                   lit "readers_error"; lit "readers_trace" ]}
    ∧ size out = 5.
Proof.
  pose (w := World [] [] {[ OUT_JSON := lit "stale" ]}).
  pose (p1 := parse_citycenter_laptops three_cards_libs default_config (sent w)).
  pose (p2 := parse_timecenter_shopify three_cards_libs default_config p1.2).
  pose (p3 := parse_readers three_cards_libs default_config p2.2).
  destruct (main_one_entry_per_site three_cards_libs default_config fixture_os w
              p1.1 p1.2 p2.1 p2.2 p3.1 p3.2 eq_refl (λ _ _, eq_refl)
              (surjective_pairing p1) (surjective_pairing p2) (surjective_pairing p3))
    as (out & w1 & res & w' & _ & Hdom & _ & _ & _ & _ & Hmain & Hfile).
  change (open_w fixture_os OUT_JSON) with (@Ok unit ()) in Hfile.
  destruct (json_dump fixture_os out) as [text|e written] eqn:Hdump;
    [|discriminate Hdump].
  destruct Hfile as [Hfiles Hres]. simpl in Hres. subst res.
  exists out, text, w'. split; [exact Hmain|]. split; [exact Hdump|].
  split.
  - rewrite Hfiles. apply map_eq. intros path. simpl.
    destruct (decide (path = OUT_JSON)) as [->|Hne].
    + by rewrite lookup_insert_eq, lookup_singleton_eq.
    + by rewrite lookup_insert_ne, !lookup_singleton_ne.
  - split.
    + rewrite Hdom. vm_compute. reflexivity.
    + apply (f_equal size) in Hdom. rewrite size_dom in Hdom. rewrite Hdom.
      vm_compute. reflexivity.
Defined.

(** * Further properties of the scraping step *)

(** ** The cleanup of a text *)

Section StringFacts.

Lemma replace_from_elem old new skip s (x : char) :
  x ∈ replace_from old new skip s → x ∈ s ∨ x ∈ new.
Proof.
  revert skip. induction s as [|c s IH]; intros skip H; simpl in H.
  - by left.
  - destruct skip as [|k].
    + destruct (startswith old (c :: s)).
      * apply elem_of_app in H as [H|H]; [by right|].
        destruct (IH _ H); [left; by right|by right].
      * apply elem_of_cons in H as [->|H]; [left; by left|].
        destruct (IH _ H); [left; by right|by right].
    + destruct (IH _ H); [left; by right|by right].
Qed.

(** Replacing a character by a text that does not hold it leaves none. *)
Lemma replace_char_gone (c : char) new s : c ∉ new → c ∉ replace [c] new s.
Proof.
  intros Hnew. unfold replace. generalize 0 as skip.
  induction s as [|x s IH]; intros skip; simpl.
  - apply not_elem_of_nil.
  - destruct skip as [|k]; [|apply IH].
    destruct (N.eqb_spec c x) as [->|Hne]; simpl.
    + intros H. apply elem_of_app in H as [H|H]; [done|]. by apply (IH 0).
    + intros H. apply elem_of_cons in H as [H|H]; [done|]. by apply (IH 0).
Qed.

(** A text in which [old] does not occur is left as it is. *)
Lemma replace_absent old new s : contains old s = false → replace old new s = s.
Proof.
  unfold replace. induction s as [|c s IH]; intros H; [done|].
  cbn [contains] in H. apply orb_false_iff in H as [Hs Hc].
  cbn [replace_from]. rewrite Hs. f_equal. by apply IH.
Qed.

Lemma contains_char (c : char) s : c ∉ s → contains [c] s = false.
Proof.
  induction s as [|x s IH]; intros H; [done|].
  apply not_elem_of_cons in H as [Hne Hs]. cbn [contains startswith].
  rewrite (IH Hs). destruct (N.eqb_spec c x); [done|]. done.
Qed.

Lemma lstrip_suffix s : lstrip s `suffix_of` s.
Proof.
  induction s as [|c s IH]; simpl; [done|].
  destruct (isspace c); [by apply suffix_cons_r|done].
Qed.

Lemma lstrip_head s c r : lstrip s = c :: r → isspace c = false.
Proof.
  induction s as [|x s IH]; simpl; [done|].
  destruct (isspace x) eqn:Hx; [done|]. by intros [= <- <-].
Qed.

Lemma lstrip_id s : (∀ c r, s = c :: r → isspace c = false) → lstrip s = s.
Proof. destruct s as [|c r]; [done|]. intros H. simpl. by rewrite (H c r). Qed.

Lemma rstrip_prefix s : rstrip s `prefix_of` s.
Proof.
  unfold rstrip. destruct (lstrip_suffix (rev s)) as [k Hk].
  exists (rev k). apply (f_equal (@rev char)) in Hk.
  by rewrite rev_involutive, rev_app_distr in Hk.
Qed.

Lemma rstrip_last s c r : rstrip s = r ++ [c] → isspace c = false.
Proof.
  unfold rstrip. intros H. apply (f_equal (@rev char)) in H.
  rewrite rev_involutive, rev_app_distr in H. simpl in H.
  by eapply lstrip_head.
Qed.

Lemma strip_sub s (x : char) : x ∈ strip s → x ∈ s.
Proof.
  unfold strip. intros H.
  destruct (rstrip_prefix (lstrip s)) as [k Hk].
  destruct (lstrip_suffix s) as [k' Hk'].
  rewrite Hk'. apply elem_of_app. right. rewrite Hk. apply elem_of_app. by left.
Qed.

End StringFacts.

(** X1: whatever the text, its cleanup holds no no-break space and no
    stray [A_CIRCUMFLEX], and neither begins nor ends with a whitespace
    character. *)
Theorem clean_str_is_clean (s : str) :
  (NBSP ∉ clean_str s)
  ∧ (A_CIRCUMFLEX ∉ clean_str s)
  ∧ (∀ c r, clean_str s = c :: r → isspace c = false)
  ∧ (∀ c r, clean_str s = r ++ [c] → isspace c = false).
Proof.
  unfold clean_str.
  set (a := replace (lit "\xa0") (lit " ") s).
  set (b := replace [NBSP] (lit " ") a).
  set (d := replace [A_CIRCUMFLEX] [] b).
  assert (Hb : NBSP ∉ b).
  { apply replace_char_gone. intros H. apply list_elem_of_In in H. simpl in H.
    destruct H as [H|[]]. discriminate H. }
  split; [|split; [|split]].
  - intros H. apply strip_sub in H. apply replace_from_elem in H as [H|H]; [done|].
    by apply not_elem_of_nil in H.
  - intros H. apply strip_sub in H. revert H. apply replace_char_gone.
    apply not_elem_of_nil.
  - intros c r H. unfold strip in H.
    destruct (rstrip_prefix (lstrip d)) as [k Hk]. rewrite H in Hk.
    by eapply lstrip_head.
  - intros c r H. by eapply rstrip_last.
Qed.

(** X2: a text without no-break space, without [A_CIRCUMFLEX], without the
    four characters backslash, x, a, 0 in a row, and that [strip] leaves as
    it is, is its own cleanup. *)
Theorem clean_str_fixed (s : str) :
  NBSP ∉ s → A_CIRCUMFLEX ∉ s → contains (lit "\xa0") s = false → strip s = s →
  clean_str s = s.
Proof.
  intros Hn Ha Hx Hs. unfold clean_str.
  rewrite (replace_absent (lit "\xa0")); [|done].
  rewrite (replace_absent [NBSP]); [|by apply contains_char].
  rewrite (replace_absent [A_CIRCUMFLEX]); [|by apply contains_char].
  done.
Qed.

Lemma clean_str_fixed_witness : clean_str (lit "Laptop A") = lit "Laptop A".
Proof.
  apply clean_str_fixed.
  - apply (bool_decide_unpack _). vm_compute. exact I.
  - apply (bool_decide_unpack _). vm_compute. exact I.
  - vm_compute. reflexivity.
  - vm_compute. reflexivity.
Defined.

(** ** The loop over the cards *)

(** The loop over a page in two parts is the loop over the second part,
    entered with what the first part left. *)
Lemma scan_cards_app body cards1 cards2 items items1 :
  scan_cards body cards1 items = Ok items1 →
  scan_cards body (cards1 ++ cards2) items = scan_cards body cards2 items1.
Proof.
  revert items. induction cards1 as [|card cards1 IH]; intros items H; simpl in *.
  - by invert H.
  - destruct (8 <=? length items) eqn:Hlen.
    + invert H. destruct cards2 as [|c2 cards2]; [done|]. simpl. by rewrite Hlen.
    + autounfold with monad_ops in *. destruct (body card) as [o|e]; [|done].
      by apply IH.
Qed.

(** When the body succeeds on every card, giving [f card], the loop returns
    the items it entered with followed by the items of the cards that have
    one, in the order of the page, as many as fit under the cap of 8. *)
Lemma scan_cards_order body (f : element → option item) cards items :
  (∀ card, card ∈ cards → body card = Ok (f card)) →
  scan_cards body cards items = Ok (items ++ take (8 - length items) (omap f cards)).
Proof.
  revert items. induction cards as [|card cards IH]; intros items Hbody; simpl.
  - by rewrite take_nil, app_nil_r.
  - destruct (8 <=? length items) eqn:Hlen.
    + apply Nat.leb_le in Hlen. replace (8 - length items) with 0 by lia.
      by rewrite take_0, app_nil_r.
    + apply Nat.leb_gt in Hlen. rewrite (Hbody card) by left.
      autounfold with monad_ops. rewrite IH by (intros; apply Hbody; by right).
      f_equal. destruct (f card) as [it|]; [|done].
      rewrite length_app. simpl.
      replace (8 - length items) with (S (8 - (length items + 1))) by lia.
      simpl. by rewrite <- app_assoc.
Qed.

(** X3: when the City Center page is fetched and parsed and every card is
    read without a raise, giving [f card], the extractor returns the items of
    the cards that have one, in the order of the page, the first 8 of them;
    it raises its extraction error when there is none. *)
Theorem citycenter_items_in_document_order (L : libs) (C : config) log rsp doc
    (f : element → option item) :
  http_get L log (Request (CITY_URL C) None) = Ok rsp →
  pq L (resp_text rsp) = Ok doc →
  (∀ card, card ∈ doc citycenter_selector → citycenter_card L C card = Ok (f card)) →
  parse_citycenter_laptops L C log
  = (match take 8 (omap f (doc citycenter_selector)) with
     | [] => Raise citycenter_no_items
     | items => Ok (SiteResult (CITY_URL C) (length items) items None)
     end, log ++ [Request (CITY_URL C) None]).
Proof.
  intros Hget Hpq Hcards.
  unfold parse_citycenter_laptops. autounfold with monad_ops. simpl.
  rewrite Hget, Hpq, (scan_cards_order _ f) by done. simpl.
  destruct (take 8 (omap f (doc citycenter_selector))) as [|it items] eqn:Hitems; [done|].
  rewrite <- Hitems, take_take. simpl. by rewrite Hitems.
Qed.

Lemma citycenter_items_in_document_order_witness :
  ∃ r,
    parse_citycenter_laptops three_cards_libs default_config []
    = (Ok r, [] ++ [Request (CITY_URL default_config) None])
    ∧ title <$> items_preview r
      = [PStr (lit "Laptop A"); PStr (lit "Laptop B"); PStr (lit "Laptop C")].
Proof.
  pose (f := λ card,
    match citycenter_card three_cards_libs default_config card with
    | Ok o => o
    | Raise _ => None
    end).
  pose proof (citycenter_items_in_document_order three_cards_libs default_config []
    (Response (CITY_URL default_config) (page_json three_cards_page))
    (page_doc three_cards_page) f) as H.
  eexists. split.
  - rewrite H.
    + vm_compute. reflexivity.
    + vm_compute. reflexivity.
    + vm_compute. reflexivity.
    + intros card Hcard. apply list_elem_of_In in Hcard.
      assert (Hc : page_doc three_cards_page citycenter_selector
                   = [h4_card (lit "Laptop A") (lit "/a"); h4_card (lit "Laptop B") (lit "/b");
                      h4_card (lit "Laptop C") (lit "/c")]) by (vm_compute; reflexivity).
      rewrite Hc in Hcard. simpl in Hcard.
      repeat (destruct Hcard as [<-|Hcard]; [vm_compute; reflexivity|]). done.
  - vm_compute. reflexivity.
Defined.

(** X4: once the loop holds 8 items it looks at no further card: whatever
    follows on the page, also a card on which the body would raise, the
    result is the same. *)
Theorem scan_cards_stops_at_eight body cards1 cards2 items items1 :
  scan_cards body cards1 items = Ok items1 →
  8 ≤ length items1 →
  scan_cards body (cards1 ++ cards2) items = Ok items1.
Proof.
  intros H Hlen. rewrite (scan_cards_app _ _ _ _ _ H).
  destruct cards2 as [|c cards2]; [done|]. simpl.
  apply Nat.leb_le in Hlen. by rewrite Hlen.
Qed.

Lemma scan_cards_stops_at_eight_witness :
  ∃ items1,
    scan_cards (citycenter_card (picky_libs offline no_loads) default_config)
      nine_cards [] = Ok items1
    ∧ citycenter_card (picky_libs offline no_loads) default_config bad_link_card
      = Raise invalid_ipv6
    ∧ scan_cards (citycenter_card (picky_libs offline no_loads) default_config)
        (nine_cards ++ [bad_link_card]) [] = Ok items1.
Proof.
  assert (H : ∃ items1,
    scan_cards (citycenter_card (picky_libs offline no_loads) default_config)
      nine_cards [] = Ok items1 ∧ 8 ≤ length items1).
  { vm_compute. eexists. split; [reflexivity|]. repeat constructor. }
  destruct H as (items1 & H & Hlen). exists items1.
  split; [exact H|]. split; [vm_compute; reflexivity|].
  exact (scan_cards_stops_at_eight _ nine_cards [bad_link_card] [] items1 H Hlen).
Defined.

(** X5: a card on which the body raises, met while fewer than 8 items are
    held, makes the whole loop raise: the items collected before it are not
    returned. *)
Theorem scan_cards_aborts body cards1 bad cards2 items items1 e :
  scan_cards body cards1 items = Ok items1 →
  length items1 < 8 →
  body bad = Raise e →
  scan_cards body (cards1 ++ bad :: cards2) items = Raise e.
Proof.
  intros H Hlen Hbad. rewrite (scan_cards_app _ _ _ _ _ H). simpl.
  apply Nat.leb_gt in Hlen. rewrite Hlen, Hbad. done.
Qed.

Lemma scan_cards_aborts_witness :
  ∃ items1,
    scan_cards (citycenter_card (picky_libs offline no_loads) default_config)
      (take 3 nine_cards) [] = Ok items1
    ∧ length items1 = 3
    ∧ scan_cards (citycenter_card (picky_libs offline no_loads) default_config)
        (take 3 nine_cards ++ bad_link_card :: drop 3 nine_cards) []
      = Raise invalid_ipv6.
Proof.
  assert (H : ∃ items1,
    scan_cards (citycenter_card (picky_libs offline no_loads) default_config)
      (take 3 nine_cards) [] = Ok items1 ∧ length items1 = 3).
  { vm_compute. eexists. split; reflexivity. }
  destruct H as (items1 & H & Hlen). exists items1.
  split; [exact H|]. split; [exact Hlen|].
  apply (scan_cards_aborts _ _ _ _ _ items1); [exact H| |vm_compute; reflexivity].
  rewrite Hlen. repeat constructor.
Defined.

(** ** The price of an item *)

Lemma py_or_is_str a b : is_str a → is_str b → is_str (py_or a b).
Proof. intros Ha Hb. unfold py_or. by destruct (truthy a). Qed.

Lemma clean_is_str v : is_str v → is_str (_clean v).
Proof. intros [s ->]. by eexists. Qed.

Lemma PStr_is_str s : is_str (PStr s).
Proof. by eexists. Qed.

Section PriceFacts.

Variable L : libs.
Variable C : config.

Ltac card_price H :=
  match type of H with
  | context [truthy ?t] => destruct (truthy t); [|discriminate H]
  end;
  autounfold with monad_ops in H;
  match type of H with
  | context [urljoin L ?b ?l] => destruct (urljoin L b l); [|discriminate H]
  end;
  invert H; simpl;
  apply clean_is_str; repeat apply py_or_is_str; apply PStr_is_str.

Lemma citycenter_card_price card it :
  citycenter_card L C card = Ok (Some it) → is_str (price it).
Proof. intros H. unfold citycenter_card in H. card_price H. Qed.

Lemma timecenter_card_price card it :
  timecenter_card L C card = Ok (Some it) → is_str (price it).
Proof. intros H. unfold timecenter_card in H. card_price H. Qed.

Lemma readers_card_price base card it :
  readers_card L base card = Ok (Some it) → is_str (price it).
Proof. intros H. unfold readers_card in H. card_price H. Qed.

Lemma push_product_price base obj items items' :
  Forall (λ it, is_str (price it)) items →
  push_product L base obj items = Ok items' →
  Forall (λ it, is_str (price it)) items'.
Proof.
  intros Hitems H. unfold push_product in H.
  destruct obj; try (by invert H).
  autounfold with monad_ops in H.
  match type of H with
  | context [match ?p with Ok _ => _ | Raise _ => _ end] =>
      destruct p as [pr|]; [|discriminate H]
  end.
  destruct (truthy (dict_get d (lit "name"))); [|by invert H].
  destruct (urljoin L base _) as [h|]; [|discriminate H].
  invert H. apply Forall_app. split; [done|]. constructor; [|constructor].
  simpl. apply PStr_is_str.
Qed.

Lemma timecenter_product_price p items items' :
  Forall (λ it, is_str (price it)) items →
  timecenter_product L C p items = Ok items' →
  Forall (λ it, is_str (price it)) items'.
Proof.
  intros Hitems H. unfold timecenter_product in H.
  autounfold with monad_ops in H.
  destruct (py_get p (lit "title")) as [t|]; [|discriminate H].
  destruct (py_get p (lit "handle")) as [handle|]; [|discriminate H].
  destruct (py_get p (lit "variants")) as [v|]; [|discriminate H].
  match type of H with
  | context [match ?p with Ok _ => _ | Raise _ => _ end] =>
      destruct p as [pr|]; [|discriminate H]
  end.
  destruct (truthy t); [|by invert H].
  invert H. apply Forall_app. split; [done|]. constructor; [|constructor].
  simpl. apply PStr_is_str.
Qed.

Lemma readers_extract_price doc base items :
  _readers_extract_from_doc L doc base = Ok items →
  Forall (λ it, is_str (price it)) items.
Proof.
  set (P := Forall (λ it : item, is_str (price it))).
  assert (Hnode : ∀ node s1 s2, P s1 → jsonld_node L base node s1 = Ok s2 → P s2).
  { intros node s1 s2 Hs1 H. unfold jsonld_node in H.
    destruct node; try (by invert H).
    destruct (eq_str _ (lit "Product")); [by eapply push_product_price|].
    destruct (eq_str _ (lit "ItemList")); [|by invert H].
    autounfold with monad_ops in H.
    destruct (py_iter _) as [lis|]; [|discriminate H].
    eapply (for_each_invariant P); [|exact Hs1|exact H].
    intros li t1 t2 Ht1 Hli. unfold push_list_element in Hli.
    destruct li; try (by invert Hli). by eapply push_product_price. }
  unfold _readers_extract_from_doc. autounfold with monad_ops.
  destruct (readers_jsonld_pass L doc base) as [ld|] eqn:Hld; [|done].
  assert (P ld) as Hprice.
  { unfold readers_jsonld_pass in Hld.
    eapply (for_each_invariant P); [|constructor|exact Hld].
    intros script s1 s2 Hs1 Hs. unfold jsonld_script in Hs.
    destruct (json_loads L _) as [data|]; [|by invert Hs].
    destruct data; try (by invert Hs); [|by eapply Hnode].
    eapply (for_each_invariant P); [|exact Hs1|exact Hs]. apply Hnode. }
  unfold readers_html_pass. destruct (length ld <? 8); [|intros H; by invert H].
  apply scan_cards_made; [|done]. apply readers_card_price.
Qed.

End PriceFacts.

(** X6: the price of every item of a successful extraction is a string,
    whatever the page or the JSON held (unlike the title, which a JSON tier
    may leave a number). *)
Theorem price_is_string (L : libs) (C : config) (s : site) log r log' :
  extractor L C s log = (Ok r, log') →
  Forall (λ it, ∃ p, price it = PStr p) (items_preview r).
Proof.
  change (extractor L C s log = (Ok r, log') →
          Forall (λ it, is_str (price it)) (items_preview r)).
  destruct s; simpl; intros H.
  - apply parse_citycenter_ok in H as (rsp & doc & items & _ & _ & Hs & _ & -> & _).
    simpl. apply Forall_take.
    eapply scan_cards_made; [apply citycenter_card_price|constructor|exact Hs].
  - apply parse_timecenter_ok in H as [(items & Hj & _ & ->)|(res & log1 & _ & _ & Hh)].
    + apply timecenter_json_items_ok in Hj as (ps & Hps & _ & _). simpl.
      eapply (for_each_invariant (Forall (λ it, is_str (price it))));
        [|constructor|exact Hps].
      intros. by eapply timecenter_product_price.
    + apply timecenter_html_tier_ok in Hh as (rsp & doc & items & _ & _ & Hs & _ & -> & _).
      simpl. apply Forall_take.
      eapply scan_cards_made; [apply timecenter_card_price|constructor|exact Hs].
  - apply parse_readers_ok in H as [(items & Hp & _ & ->)|(? & q & items & _ & Hq & Hp & _ & ->)];
      apply readers_page_ok in Hp as (rsp & doc & _ & _ & He & _); simpl;
      apply Forall_take; by eapply readers_extract_price.
Qed.

Lemma price_is_string_witness :
  ∃ r log',
    extractor five_products_libs default_config TimeCenter [] = (Ok r, log')
    ∧ length (items_preview r) = 5
    ∧ Forall (λ it, ∃ p, price it = PStr p) (items_preview r).
Proof.
  assert (H : ∃ r log',
    extractor five_products_libs default_config TimeCenter [] = (Ok r, log')
    ∧ length (items_preview r) = 5).
  { vm_compute. eexists _, _. split; reflexivity. }
  destruct H as (r & log' & Hr & Hlen). exists r, log'.
  split; [exact Hr|]. split; [exact Hlen|].
  exact (price_is_string five_products_libs default_config TimeCenter [] r log' Hr).
Defined.

(** ** The requests that are sent *)

Section RequestFacts.

Variable L : libs.
Variable C : config.

Lemma parse_citycenter_log log res log' :
  parse_citycenter_laptops L C log = (res, log') →
  log' = log ++ [Request (CITY_URL C) None].
Proof.
  intros H. unfold parse_citycenter_laptops in H.
  autounfold with monad_ops in H. simpl in H.
  repeat match type of H with
         | context [match ?x with _ => _ end] => destruct x
         end; by invert H.
Qed.

Lemma timecenter_html_tier_log log res log' :
  timecenter_html_tier L C log = (res, log') →
  log' = log ++ [Request (TIME_URL C) None].
Proof.
  intros H. unfold timecenter_html_tier in H.
  autounfold with monad_ops in H. simpl in H.
  repeat match type of H with
         | context [match ?x with _ => _ end] => destruct x
         end; by invert H.
Qed.

(** Time Center is its JSON tier, and after a raise or an empty list there
    its HTML tier. *)
Lemma parse_timecenter_tiers log :
  parse_timecenter_shopify L C log =
  match timecenter_json_items L C log with
  | (Ok (it :: its), log1) =>
      (Ok (SiteResult (prod_json_url C) (length (it :: its)) (it :: its) None), log1)
  | (_, log1) => timecenter_html_tier L C log1
  end.
Proof.
  unfold parse_timecenter_shopify, timecenter_json_tier. autounfold with monad_ops.
  by destruct (timecenter_json_items L C log) as [[[|it its]|e] log1].
Qed.

Lemma extractor_sends s log res log' :
  extractor L C s log = (res, log') →
  ∃ new, log' = log ++ new ∧ site_requests L C s new.
Proof.
  destruct s; simpl; intros H.
  - apply parse_citycenter_log in H. eauto.
  - rewrite parse_timecenter_tiers in H.
    destruct (timecenter_json_items L C log) as [res1 log1] eqn:Hj.
    apply timecenter_json_items_log in Hj as ->.
    assert (Hhtml : timecenter_html_tier L C (log ++ [prod_json_request C]) = (res, log') →
      ∃ new, log' = log ++ new ∧ site_requests L C TimeCenter new).
    { intros Hh. apply timecenter_html_tier_log in Hh as ->.
      eexists. split; [by rewrite <- app_assoc|]. by right. }
    destruct res1 as [[|it its]|e]; [by apply Hhtml| |by apply Hhtml].
    invert H. eexists. split; [done|]. by left.
  - rewrite parse_readers_pages in H.
    destruct (readers_page L (READERS_URL C) log) as [res1 log1] eqn:H1.
    apply readers_page_log in H1 as ->.
    destruct res1 as [[|it its]|e].
    + destruct (quote_plus L (READERS_QUERY C)) as [q|e] eqn:Hq.
      * destruct (readers_page L _ _) as [res2 log2] eqn:H2.
        apply readers_page_log in H2 as ->.
        assert (log' = (log ++ [Request (READERS_URL C) None])
                       ++ [Request (readers_search_prefix ++ q) None]) as ->.
        { by destruct res2 as [[|it its]|e]; invert H. }
        eexists. split; [by rewrite <- app_assoc|]. right. eauto.
      * invert H. eexists. split; [done|]. by left.
    + invert H. eexists. split; [done|]. by left.
    + invert H. eexists. split; [done|]. by left.
Qed.

End RequestFacts.

(** X7: whatever an extractor returns or raises, it only adds to the log of
    requests, one request or two: City Center its page; Time Center the
    products endpoint and then at most its listing page; Readers its page and
    then at most the search page. *)
Theorem extractor_requests (L : libs) (C : config) (s : site) log res log' :
  extractor L C s log = (res, log') →
  ∃ new, log' = log ++ new ∧ site_requests L C s new ∧ 1 ≤ length new ≤ 2.
Proof.
  intros H. apply extractor_sends in H as (new & -> & Hnew).
  exists new. split; [done|]. split; [done|].
  destruct s; simpl in Hnew.
  - subst. simpl. lia.
  - destruct Hnew as [->| ->]; simpl; lia.
  - destruct Hnew as [->|(q & _ & ->)]; simpl; lia.
Qed.

Lemma extractor_requests_witness :
  ∃ res log' new,
    extractor search_fallback_libs default_config Readers [] = (res, log')
    ∧ log' = [] ++ new
    ∧ site_requests search_fallback_libs default_config Readers new
    ∧ 1 ≤ length new ≤ 2
    ∧ length log' = 2.
Proof.
  pose (p := extractor search_fallback_libs default_config Readers []).
  destruct (extractor_requests search_fallback_libs default_config Readers []
              p.1 p.2 (surjective_pairing p)) as (new & Hlog & Hnew & Hlen).
  exists p.1, p.2, new. split; [exact (surjective_pairing p)|].
  split; [exact Hlog|]. split; [exact Hnew|]. split; [exact Hlen|].
  vm_compute. reflexivity.
Defined.

(** ** The orchestrator, whatever the file system answers *)

(** X8: once the output directory is there and as long as no print raises, a
    run of [main] sends between 3 and 5 requests whatever the sites answer
    and whether or not the file can be opened and written: the requests of
    City Center, then those of Time Center, then those of Readers. *)
Theorem main_requests (L : libs) (C : config) (O : os_env) (w : world) res w' :
  os_makedirs O OUT_DIR = Ok () →
  (∀ before m, os_print O before m = Ok ()) →
  main L C O w = (res, w') →
  ∃ n1 n2 n3,
    sent w' = sent w ++ n1 ++ n2 ++ n3
    ∧ site_requests L C CityCenter n1
    ∧ site_requests L C TimeCenter n2
    ∧ site_requests L C Readers n3
    ∧ 3 ≤ length (n1 ++ n2 ++ n3) ≤ 5.
Proof.
  intros Hdir Hprint Hmain.
  destruct (parse_citycenter_laptops L C (sent w)) as [r1 l1] eqn:H1.
  destruct (parse_timecenter_shopify L C l1) as [r2 l2] eqn:H2.
  destruct (parse_readers L C l2) as [r3 l3] eqn:H3.
  assert (sent w' = l3) as ->.
  { rewrite (main_runs L C O w r1 l1 r2 l2 r3 l3 Hprint Hdir H1 H2 H3) in Hmain.
    simpl in Hmain.
    destruct (open_w O OUT_JSON) as [[]|e]; [|by invert Hmain].
    destruct (json_dump O _) as [text|e written]; [|by invert Hmain].
    by destruct (os_abspath O OUT_JSON) as [path|e]; invert Hmain. }
  destruct (extractor_sends L C CityCenter _ _ _ H1) as (n1 & -> & Hn1).
  destruct (extractor_sends L C TimeCenter _ _ _ H2) as (n2 & -> & Hn2).
  destruct (extractor_sends L C Readers _ _ _ H3) as (n3 & -> & Hn3).
  exists n1, n2, n3. split; [by rewrite <- !app_assoc|].
  split; [done|]. split; [done|]. split; [done|].
  simpl in Hn1. subst n1.
  destruct Hn2 as [->| ->]; destruct Hn3 as [->|(q & _ & ->)]; simpl; lia.
Qed.

Lemma main_requests_witness :
  ∃ res w' n1 n2 n3,
    main offline_libs default_config readonly_os (World [] [] ∅) = (res, w')
    ∧ sent w' = [] ++ n1 ++ n2 ++ n3
    ∧ site_requests offline_libs default_config CityCenter n1
    ∧ site_requests offline_libs default_config TimeCenter n2
    ∧ site_requests offline_libs default_config Readers n3
    ∧ 3 ≤ length (n1 ++ n2 ++ n3) ≤ 5
    ∧ length (sent w') = 4.
Proof.
  pose (p := main offline_libs default_config readonly_os (World [] [] ∅)).
  destruct (main_requests offline_libs default_config readonly_os (World [] [] ∅)
              p.1 p.2 eq_refl (λ _ _, eq_refl) (surjective_pairing p))
    as (n1 & n2 & n3 & Hsent & H1 & H2 & H3 & Hlen).
  exists p.1, p.2, n1, n2, n3. split; [exact (surjective_pairing p)|].
  split; [exact Hsent|]. split; [exact H1|]. split; [exact H2|].
  split; [exact H3|]. split; [exact Hlen|]. vm_compute. reflexivity.
Defined.

(** X9: no exception of a site reaches the caller of [main].  When [main]
    raises, the exception is that of [os.makedirs], and then nothing was
    fetched or changed; or of the last print that was made; or of [open],
    and then the files are as before; or of [json.dump]; or of
    [os.path.abspath]. *)
Theorem main_raises_for_the_system_only (L : libs) (C : config) (O : os_env)
    (w : world) e w' :
  main L C O w = (Raise e, w') →
  (os_makedirs O OUT_DIR = Raise e ∧ w' = w)
  ∨ (∃ before m, prints w' = before ++ [m] ∧ os_print O before m = Raise e)
  ∨ (open_w O OUT_JSON = Raise e ∧ files w' = files w)
  ∨ (∃ out written, json_dump O out = DumpFailed e written
                    ∧ files w' = <[OUT_JSON := written]> (files w))
  ∨ os_abspath O OUT_JSON = Raise e.
Proof.
  unfold main. intros H.
  destruct (os_makedirs O OUT_DIR) as [[]|e0]; [|invert H; by left].
  destruct (run_steps L O (steps L C) ∅ w) as [[out|e1] w1] eqn:Hrun.
  - assert (files w1 = files w) as Hfiles.
    { clear H. revert Hrun. generalize (steps L C), (∅ : gmap str out_value).
      intros l. revert w. induction l as [|[name fn] l IH]; intros w out0 Hrun;
        simpl in Hrun.
      - by invert Hrun.
      - destruct (run_step L O name fn out0 w) as [[out1|e1] w2] eqn:Hs; [|done].
        rewrite (IH _ _ Hrun). clear IH Hrun. revert Hs.
        unfold run_step, handle, call, log.
        destruct (os_print O (prints w) _); simpl.
        + destruct (fn (sent w)) as [[v|e2] lg]; simpl.
          * destruct (os_print O _ _); simpl; [by intros [= _ <-]|].
            destruct (os_print O _ _); simpl; [by intros [= _ <-]|done].
          * destruct (os_print O _ _); simpl; [by intros [= _ <-]|done].
        + destruct (os_print O _ _); simpl; [by intros [= _ <-]|done]. }
    unfold write_out in H.
    destruct (open_w O OUT_JSON) as [[]|e2]; [|invert H; right; right; by left].
    destruct (json_dump O out) as [text|e3 written] eqn:Hdump.
    + destruct (os_abspath O OUT_JSON) as [path|e4]; [|invert H; by do 4 right].
      unfold log in H. simpl in H.
      destruct (os_print O _ _) eqn:Hp; invert H. right. left. eauto.
    + invert H. do 3 right. left. exists out, written. simpl. by rewrite Hfiles.
  - invert H. right. left. by eapply run_steps_raises.
Qed.

Lemma main_raises_for_the_system_only_witness :
  ∃ w',
    main offline_libs default_config readonly_os (World [] [] ∅)
    = (Raise permission_denied, w')
    ∧ ((os_makedirs readonly_os OUT_DIR = Raise permission_denied ∧ w' = World [] [] ∅)
       ∨ (∃ before m, prints w' = before ++ [m]
                      ∧ os_print readonly_os before m = Raise permission_denied)
       ∨ (open_w readonly_os OUT_JSON = Raise permission_denied ∧ files w' = ∅)
       ∨ (∃ out written, json_dump readonly_os out = DumpFailed permission_denied written
                         ∧ files w' = <[OUT_JSON := written]> ∅)
       ∨ os_abspath readonly_os OUT_JSON = Raise permission_denied)
    ∧ length (sent w') = 4.
Proof.
  assert (H : ∃ w', main offline_libs default_config readonly_os (World [] [] ∅)
                    = (Raise permission_denied, w') ∧ length (sent w') = 4).
  { vm_compute. eexists. split; reflexivity. }
  destruct H as (w' & Hmain & Hlen). exists w'.
  split; [exact Hmain|]. split; [|exact Hlen].
  exact (main_raises_for_the_system_only offline_libs default_config readonly_os
           (World [] [] ∅) permission_denied w' Hmain).
Defined.

(** ** Time Center: what the JSON tier hides *)

(** X10: when Time Center raises, both tiers have been tried: the log holds
    the request to the products endpoint followed by the request to the
    listing page, and the exception is the one of the HTML tier; an exception
    of the JSON tier is never seen. *)
Theorem timecenter_raises_after_both_tiers (L : libs) (C : config) log e log' :
  parse_timecenter_shopify L C log = (Raise e, log') →
  log' = log ++ [prod_json_request C; Request (TIME_URL C) None]
  ∧ timecenter_html_tier L C (log ++ [prod_json_request C]) = (Raise e, log').
Proof.
  rewrite parse_timecenter_tiers.
  destruct (timecenter_json_items L C log) as [res1 log1] eqn:Hj.
  apply timecenter_json_items_log in Hj as ->.
  assert (Hhtml : timecenter_html_tier L C (log ++ [prod_json_request C]) = (Raise e, log') →
    log' = log ++ [prod_json_request C; Request (TIME_URL C) None]
    ∧ timecenter_html_tier L C (log ++ [prod_json_request C]) = (Raise e, log')).
  { intros Hh. split; [|done]. apply timecenter_html_tier_log in Hh as ->.
    by rewrite <- app_assoc. }
  by destruct res1 as [[|it its]|e1].
Qed.

Lemma timecenter_raises_after_both_tiers_witness :
  ∃ e log',
    parse_timecenter_shopify offline_libs default_config [] = (Raise e, log')
    ∧ log' = [] ++ [prod_json_request default_config;
                    Request (TIME_URL default_config) None]
    ∧ timecenter_html_tier offline_libs default_config
        ([] ++ [prod_json_request default_config]) = (Raise e, log').
Proof.
  assert (H : ∃ e log',
    parse_timecenter_shopify offline_libs default_config [] = (Raise e, log')).
  { vm_compute. eexists _, _. reflexivity. }
  destruct H as (e & log' & H). exists e, log'. split; [exact H|].
  exact (timecenter_raises_after_both_tiers offline_libs default_config [] e log' H).
Defined.

(** X11: when the products endpoint answers with JSON that is not an object
    (an array of products, say), the JSON tier finds nothing and Time Center
    is its HTML tier: only an object is asked for its [products]. *)
Theorem timecenter_json_array_falls_back (L : libs) (C : config) log rsp data :
  http_get L log (prod_json_request C) = Ok rsp →
  resp_json rsp = Ok data →
  (∀ d, data ≠ PDict d) →
  parse_timecenter_shopify L C log
  = timecenter_html_tier L C (log ++ [prod_json_request C]).
Proof.
  intros Hget Hjson Hdata. rewrite parse_timecenter_tiers.
  assert (∃ e, timecenter_json_items L C log = (Raise e, log ++ [prod_json_request C]))
    as (e & ->); [|done].
  unfold timecenter_json_items. autounfold with monad_ops. simpl.
  change (Request (prod_json_url C) (Some [(lit "limit", PInt 12)]))
    with (prod_json_request C).
  rewrite Hget, Hjson. simpl.
  destruct data; simpl; eauto. by destruct (Hdata d).
Qed.

Lemma timecenter_json_array_falls_back_witness :
  ∃ r,
    parse_timecenter_shopify array_endpoint_libs default_config []
    = timecenter_html_tier array_endpoint_libs default_config
        ([] ++ [prod_json_request default_config])
    ∧ parse_timecenter_shopify array_endpoint_libs default_config []
      = (Ok r, [prod_json_request default_config; Request (TIME_URL default_config) None])
    ∧ source r = TIME_URL default_config.
Proof.
  assert (H : ∃ r,
    parse_timecenter_shopify array_endpoint_libs default_config []
    = (Ok r, [prod_json_request default_config; Request (TIME_URL default_config) None])
    ∧ source r = TIME_URL default_config).
  { vm_compute. eexists. split; reflexivity. }
  destruct H as (r & Hr & Hsrc). exists r. split; [|split; [exact Hr|exact Hsrc]].
  apply (timecenter_json_array_falls_back array_endpoint_libs default_config []
           (Response (prod_json_url default_config)
              (Ok (PList [shopify_product (lit "W1") (lit "w1")])))
           (PList [shopify_product (lit "W1") (lit "w1")])).
  - vm_compute. reflexivity.
  - reflexivity.
  - discriminate.
Defined.

(** ** Readers: blocks that are passed over *)

Lemma for_each_app {A S : Type} (body : A → S → result S) l1 l2 s :
  for_each body (l1 ++ l2) s = (s1 ← for_each body l1 s; for_each body l2 s1).
Proof.
  revert s. induction l1 as [|x l1 IH]; intros s; simpl; [done|].
  autounfold with monad_ops. destruct (body x s) as [s'|e]; [|done]. apply IH.
Qed.

Lemma passed_over_script L base script items :
  passed_over L script → jsonld_script L base script items = Ok items.
Proof.
  unfold passed_over, jsonld_script.
  destruct (json_loads L (el_text script)) as [data|e]; [|done].
  destruct data; try done. intros [Hp Hl]. unfold jsonld_node. by rewrite Hp, Hl.
Qed.

(** X12: a JSON-LD block that is no JSON, or JSON that is neither an array
    nor an object, or an object of another [@type], changes nothing: the
    JSON-LD pass over a page with such a block is the pass over the page
    without it, so the blocks before and after it still give their items. *)
Theorem jsonld_block_passed_over (L : libs) (base : str) (doc doc' : document)
    s1 bad s2 :
  passed_over L bad →
  doc jsonld_selector = s1 ++ bad :: s2 →
  doc' jsonld_selector = s1 ++ s2 →
  readers_jsonld_pass L doc base = readers_jsonld_pass L doc' base.
Proof.
  intros Hbad Hdoc Hdoc'. unfold readers_jsonld_pass. rewrite Hdoc, Hdoc'.
  rewrite !for_each_app. autounfold with monad_ops.
  destruct (for_each (jsonld_script L base) s1 []) as [items1|e]; [|done].
  simpl. autounfold with monad_ops. by rewrite (passed_over_script _ _ _ _ Hbad).
Qed.

Lemma jsonld_block_passed_over_witness :
  ∃ items,
    readers_jsonld_pass mixed_libs
      (doc_with_scripts ([dune_block] ++ broken_block :: [dune_block]))
      (READERS_URL default_config)
    = readers_jsonld_pass mixed_libs
        (doc_with_scripts ([dune_block] ++ [dune_block]))
        (READERS_URL default_config)
    ∧ readers_jsonld_pass mixed_libs
        (doc_with_scripts ([dune_block] ++ broken_block :: [dune_block]))
        (READERS_URL default_config) = Ok items
    ∧ length items = 2.
Proof.
  assert (H : ∃ items,
    readers_jsonld_pass mixed_libs
      (doc_with_scripts ([dune_block] ++ broken_block :: [dune_block]))
      (READERS_URL default_config) = Ok items ∧ length items = 2).
  { vm_compute. eexists. split; reflexivity. }
  destruct H as (items & H & Hlen). exists items.
  split; [|split; [exact H|exact Hlen]].
  apply (jsonld_block_passed_over mixed_libs (READERS_URL default_config)
           _ _ [dune_block] broken_block [dune_block]).
  - vm_compute. exact I.
  - vm_compute. reflexivity.
  - vm_compute. reflexivity.
Defined.

(** ** Readers: a block that is JSON but not as expected *)

Lemma str_eqb_eq a b : str_eqb a b = true → a = b.
Proof.
  revert b. induction a as [|x a IH]; intros [|y b] H; simpl in H; try done.
  apply andb_true_iff in H as [Hx Ha]. apply N.eqb_eq in Hx as ->.
  by rewrite (IH b Ha).
Qed.

(** X18: unlike a block that is no JSON, an [ItemList] whose
    [itemListElement] cannot be iterated ([null], a number, a boolean) is not
    passed over: the exception leaves [_readers_extract_from_doc], and the
    items of the blocks before it and the cards of the page are not
    returned. *)
Theorem jsonld_bad_item_list_aborts (L : libs) (doc : document) (base : str)
    s1 script s2 items1 d v e :
  doc jsonld_selector = s1 ++ script :: s2 →
  for_each (jsonld_script L base) s1 [] = Ok items1 →
  json_loads L (el_text script) = Ok (PDict d) →
  eq_str (dict_get d (lit "@type")) (lit "ItemList") = true →
  assoc (lit "itemListElement") d = Some v →
  py_iter v = Raise e →
  _readers_extract_from_doc L doc base = Raise e.
Proof.
  intros Hdoc H1 Hjson Hty Hv Hiter.
  unfold _readers_extract_from_doc, readers_jsonld_pass. rewrite Hdoc.
  assert (Hs : jsonld_script L base script items1 = Raise e).
  { unfold jsonld_script. rewrite Hjson. unfold jsonld_node.
    destruct (dict_get d (lit "@type")) as [| | | |ty| |] eqn:Hd; try discriminate Hty.
    simpl in Hty. apply str_eqb_eq in Hty as ->.
    change (eq_str (PStr (lit "ItemList")) (lit "Product")) with false.
    change (eq_str (PStr (lit "ItemList")) (lit "ItemList")) with true.
    cbn match. rewrite Hv. simpl. by rewrite Hiter. }
  rewrite for_each_app. autounfold with monad_ops. rewrite H1. simpl.
  autounfold with monad_ops. by rewrite Hs.
Qed.

Lemma jsonld_bad_item_list_aborts_witness :
  ∃ items1,
    for_each (jsonld_script null_list_libs (READERS_URL default_config)) [dune_block] []
    = Ok items1
    ∧ length items1 = 1
    ∧ _readers_extract_from_doc null_list_libs
        (doc_with_scripts ([dune_block] ++ null_list_block :: []))
        (READERS_URL default_config)
      = Raise (TypeError (lit "'NoneType' object is not iterable")).
Proof.
  assert (H : ∃ items1,
    for_each (jsonld_script null_list_libs (READERS_URL default_config)) [dune_block] []
    = Ok items1 ∧ length items1 = 1).
  { vm_compute. eexists. split; reflexivity. }
  destruct H as (items1 & H & Hlen). exists items1.
  split; [exact H|]. split; [exact Hlen|].
  apply (jsonld_bad_item_list_aborts null_list_libs _ (READERS_URL default_config)
           [dune_block] null_list_block [] items1
           [(lit "@type", PStr (lit "ItemList")); (lit "itemListElement", PNone)] PNone).
  - vm_compute. reflexivity.
  - exact H.
  - vm_compute. reflexivity.
  - vm_compute. reflexivity.
  - vm_compute. reflexivity.
  - vm_compute. reflexivity.
Defined.

(** ** What a success record says *)

(** X13: a success record is never empty, and its [source] and [note] tell
    the page or tier it comes from: City Center its page; Time Center the
    products endpoint or its listing page; Readers its page, or the search
    page together with the note.  Only the search fallback carries a note. *)
Theorem success_record_shape (L : libs) (C : config) (s : site) log r log' :
  extractor L C s log = (Ok r, log') →
  1 ≤ items_count r
  ∧ items_preview r ≠ []
  ∧ match s with
    | CityCenter => source r = CITY_URL C ∧ note r = None
    | TimeCenter => (source r = prod_json_url C ∨ source r = TIME_URL C)
                    ∧ note r = None
    | Readers =>
        (source r = READERS_URL C ∧ note r = None)
        ∨ (∃ q, quote_plus L (READERS_QUERY C) = Ok q
                ∧ source r = lit "https://www.readers.jo/index.php?route=product/search&search=" ++ q
                ∧ note r = Some (lit "Search fallback for '" ++ READERS_QUERY C ++ lit "'"))
    end.
Proof.
  assert (Hne : ∀ items : list item, items ≠ [] →
    1 ≤ length items ∧ take 8 items ≠ []).
  { intros [|it items] H; [done|]. simpl. split; [lia|done]. }
  destruct s; simpl; intros H.
  - apply parse_citycenter_ok in H as (rsp & doc & items & _ & _ & _ & Hi & -> & _).
    simpl. destruct (Hne _ Hi). done.
  - apply parse_timecenter_ok in H as [(items & _ & Hi & ->)|(res & log1 & _ & _ & Hh)].
    + simpl. destruct (Hne _ Hi). split; [done|]. split; [done|]. split; [by left|done].
    + apply timecenter_html_tier_ok in Hh as (rsp & doc & items & _ & _ & _ & Hi & -> & _).
      simpl. destruct (Hne _ Hi). split; [done|]. split; [done|]. split; [by right|done].
  - apply parse_readers_ok in H as [(items & _ & Hi & ->)|(? & q & items & _ & Hq & _ & Hi & ->)];
      simpl; destruct (Hne _ Hi); (split; [done|]); (split; [done|]).
    + by left.
    + right. exists q. done.
Qed.

Lemma success_record_shape_witness :
  ∃ r log',
    extractor search_fallback_libs default_config Readers [] = (Ok r, log')
    ∧ 1 ≤ items_count r
    ∧ items_preview r ≠ []
    ∧ ((source r = READERS_URL default_config ∧ note r = None)
       ∨ (∃ q, quote_plus search_fallback_libs (READERS_QUERY default_config) = Ok q
               ∧ source r = lit "https://www.readers.jo/index.php?route=product/search&search=" ++ q
               ∧ note r = Some (lit "Search fallback for '" ++ READERS_QUERY default_config
                                ++ lit "'")))
    ∧ note r = Some (lit "Search fallback for 'book'").
Proof.
  assert (H : ∃ r log',
    extractor search_fallback_libs default_config Readers [] = (Ok r, log')
    ∧ note r = Some (lit "Search fallback for 'book'")).
  { vm_compute. eexists _, _. split; reflexivity. }
  destruct H as (r & log' & Hr & Hnote). exists r, log'. split; [exact Hr|].
  destruct (success_record_shape search_fallback_libs default_config Readers [] r log' Hr)
    as (H1 & H2 & H3).
  split; [exact H1|]. split; [exact H2|]. split; [exact H3|exact Hnote].
Defined.

(** ** Readers: how the two passes add up *)

(** X14: when the JSON-LD pass ends with [ld] and every card of the page is
    read without a raise, giving [f card], the extraction returns [ld]
    followed by the items of the cards that have one, in the order of the
    page, as many as bring the total to 8, and none when [ld] has 8 items or
    more. *)
Theorem readers_items_combined (L : libs) (doc : document) (base : str) ld
    (f : element → option item) :
  readers_jsonld_pass L doc base = Ok ld →
  (∀ card, card ∈ doc readers_selector → readers_card L base card = Ok (f card)) →
  _readers_extract_from_doc L doc base
  = Ok (ld ++ take (8 - length ld) (omap f (doc readers_selector))).
Proof.
  intros Hld Hcards. unfold _readers_extract_from_doc. autounfold with monad_ops.
  rewrite Hld. unfold readers_html_pass.
  destruct (length ld <? 8) eqn:Hlen.
  - by apply scan_cards_order.
  - apply Nat.ltb_ge in Hlen. replace (8 - length ld) with 0 by lia.
    by rewrite take_0, app_nil_r.
Qed.

Lemma readers_items_combined_witness :
  ∃ ld items,
    readers_jsonld_pass mixed_libs mixed_doc (READERS_URL default_config) = Ok ld
    ∧ _readers_extract_from_doc mixed_libs mixed_doc (READERS_URL default_config) = Ok items
    ∧ title <$> items = [PStr (lit "Dune"); PStr (lit "A Book")].
Proof.
  pose (f := λ card,
    match readers_card mixed_libs (READERS_URL default_config) card with
    | Ok o => o
    | Raise _ => None
    end).
  assert (Hld : ∃ ld,
    readers_jsonld_pass mixed_libs mixed_doc (READERS_URL default_config) = Ok ld).
  { vm_compute. eexists. reflexivity. }
  destruct Hld as (ld & Hld). exists ld. eexists. split; [exact Hld|]. split.
  - apply (readers_items_combined mixed_libs mixed_doc (READERS_URL default_config) ld f Hld).
    intros card Hcard. apply list_elem_of_In in Hcard.
    assert (Hc : mixed_doc readers_selector = [h4_card (lit "A Book") (lit "/book")])
      by (vm_compute; reflexivity).
    rewrite Hc in Hcard. simpl in Hcard.
    destruct Hcard as [<-|[]]. vm_compute. reflexivity.
  - assert (Hld' : readers_jsonld_pass mixed_libs mixed_doc (READERS_URL default_config)
                   = Ok [Item (PStr (lit "Dune")) (PStr [])
                           (PStr (READERS_URL default_config ++ lit "/dune"))])
      by (vm_compute; reflexivity).
    rewrite Hld in Hld'. injection Hld' as ->. vm_compute. reflexivity.
Defined.

(** ** The URL of the products endpoint *)

Section UrlFacts.

Lemma split_head_no_sep (sep : char) s : sep ∉ split_head sep s.
Proof.
  induction s as [|c s IH]; simpl; [apply not_elem_of_nil|].
  destruct (N.eqb_spec c sep) as [->|Hne]; [apply not_elem_of_nil|].
  apply not_elem_of_cons. split; [done|exact IH].
Qed.

Lemma lstrip_char_suffix ch s : lstrip_char ch s `suffix_of` s.
Proof.
  induction s as [|c s IH]; simpl; [done|].
  destruct (c =? ch)%N; [by apply suffix_cons_r|done].
Qed.

Lemma lstrip_char_head ch s c r : lstrip_char ch s = c :: r → c ≠ ch.
Proof.
  induction s as [|x s IH]; simpl; [done|].
  destruct (N.eqb_spec x ch) as [->|Hne]; [done|]. by intros [= <- <-].
Qed.

Lemma rstrip_char_prefix ch s : rstrip_char ch s `prefix_of` s.
Proof.
  unfold rstrip_char. destruct (lstrip_char_suffix ch (rev s)) as [k Hk].
  exists (rev k). apply (f_equal (@rev char)) in Hk.
  by rewrite rev_involutive, rev_app_distr in Hk.
Qed.

Lemma rstrip_char_last ch s c r : rstrip_char ch s = r ++ [c] → c ≠ ch.
Proof.
  unfold rstrip_char. intros H. apply (f_equal (@rev char)) in H.
  rewrite rev_involutive, rev_app_distr in H. simpl in H.
  by eapply lstrip_char_head.
Qed.

End UrlFacts.

(** X15: whatever the configured Time Center URL, the URL of the JSON tier
    is some base followed by [/products.json], and the base holds no question
    mark (the query of the configured URL is dropped) and does not end with a
    slash (no doubled slash before [products.json]). *)
Theorem prod_json_url_shape (C : config) :
  ∃ base,
    prod_json_url C = base ++ lit "/products.json"
    ∧ (63%N ∉ base)
    ∧ (∀ b, base ≠ b ++ [47%N]).
Proof.
  unfold prod_json_url.
  set (base := rstrip_char 47%N (split_head 63%N (TIME_URL C))).
  destruct (contains (lit "/collections/") base).
  - exists base. split; [done|]. split.
    + intros H. destruct (rstrip_char_prefix 47%N (split_head 63%N (TIME_URL C))) as [k Hk].
      apply (split_head_no_sep 63%N (TIME_URL C)). rewrite Hk.
      apply elem_of_app. by left.
    + intros b Hb. by apply rstrip_char_last in Hb.
  - exists (lit "https://shop.timecenter.jo"). split; [done|]. split.
    + apply (bool_decide_unpack _). vm_compute. exact I.
    + intros b Hb. apply (f_equal (@rev char)) in Hb.
      rewrite rev_app_distr in Hb. vm_compute in Hb. discriminate Hb.
Qed.

(** ** The column labels of the cleaned table *)

(** X17: [normalize_columns] keeps the number and the order of the columns,
    and no label it gives holds a space or a hyphen. *)
Theorem normalized_labels_have_no_space (lower : str → str) (columns : list str) :
  length (LoadClean.normalize_columns lower columns) = length columns
  ∧ Forall (λ c, (32%N ∉ c) ∧ (45%N ∉ c)) (LoadClean.normalize_columns lower columns)
  ∧ ∀ i c, columns !! i = Some c →
           LoadClean.normalize_columns lower columns !! i
           = Some (LoadClean.normalize_label lower c).
Proof.
  unfold LoadClean.normalize_columns. split; [by rewrite length_map|]. split.
  - apply Forall_forall. intros c Hc. apply list_elem_of_In, in_map_iff in Hc.
    destruct Hc as (c0 & <- & _). unfold LoadClean.normalize_label. split.
    + intros H. apply replace_from_elem in H as [H|H].
      * revert H. apply (replace_char_gone 32%N).
        apply (bool_decide_unpack _). vm_compute. exact I.
      * revert H. apply (bool_decide_unpack _). vm_compute. exact I.
    + apply (replace_char_gone 45%N).
      apply (bool_decide_unpack _). vm_compute. exact I.
  - intros i c Hi. by rewrite list_lookup_fmap, Hi.
Qed.
